(** * sip-bot: the per-call conversation loops of [agent_bot.py] and
    [transcription_bot.py]

    The two call handlers, [AgentCall] and [TranscriptionCall], are embedded
    as programs of a small state, exception and trace monad.  Everything the
    handlers obtain from a collaborator (the pjsua2 recorder and player, the
    OpenAI speech-to-text, chat and speech services, the temporary file, the
    transcript sender) is an input of the turn, held in a record [TurnEnv];
    everything they ask of a collaborator is an [Event] of the trace.

    The loops are cooperative: the [onCallState] callback of a disconnect
    runs while a loop is suspended at an [await], and the input of a turn
    says at which one.  Exceptions are the instances of Python's
    [Exception]; the cancellation of a task is not one and is left out, as
    is logging. *)

From Stdlib Require Import List Bool Arith ZArith NArith QArith Lia.
From Stdlib.Strings Require Import String Ascii Byte.
From Stdlib.Floats Require Import SpecFloat.
Import ListNotations.

Set Implicit Arguments.

(** ** Python strings *)

(** A Python [str] is a sequence of code points. *)
Definition pystr := list N.

(** A literal of the source; the literals used here are ASCII. *)
Definition u (s : string) : pystr := map N_of_ascii (list_ascii_of_string s).

Module Py.

(** [str.isspace] on one code point: the white space of CPython's Unicode
    database. *)
Definition isspace (c : N) : bool :=
  ((9 <=? c) && (c <=? 13) || (28 <=? c) && (c <=? 32)
   || (c =? 133) || (c =? 160) || (c =? 5760)
   || (8192 <=? c) && (c <=? 8202)
   || (c =? 8232) || (c =? 8233) || (c =? 8239) || (c =? 8287)
   || (c =? 12288))%N.

Fixpoint lstrip (s : pystr) : pystr :=
  match s with
  | [] => []
  | c :: r => if isspace c then lstrip r else s
  end.

Fixpoint rstrip (s : pystr) : pystr :=
  match s with
  | [] => []
  | c :: r =>
      match rstrip r with
      | [] => if isspace c then [] else [c]
      | r' => c :: r'
      end
  end.

(** [s.strip()] *)
Definition strip (s : pystr) : pystr := rstrip (lstrip s).

Fixpoint startswith (p s : pystr) : bool :=
  match p, s with
  | [], _ => true
  | _ :: _, [] => false
  | a :: p', b :: s' => (a =? b)%N && startswith p' s'
  end.

(** [p in s] *)
Fixpoint contains (p s : pystr) : bool :=
  startswith p s ||
  match s with
  | [] => false
  | _ :: r => contains p r
  end.

(** One left-to-right pass over [s]: [skip] counts the characters of a
    match that are still to be dropped. *)
Fixpoint replace_from (old new : pystr) (skip : nat) (s : pystr) : pystr :=
  match s with
  | [] => []
  | c :: r =>
      match skip with
      | S k => replace_from old new k r
      | O =>
          if startswith old s
          then new ++ replace_from old new (List.length old - 1) r
          else c :: replace_from old new 0 r
      end
  end.

(** [s.replace(old, new)]: every non-overlapping occurrence, found from
    the left; an empty [old] matches between the characters. *)
Definition replace (old new s : pystr) : pystr :=
  match old with
  | [] => new ++ flat_map (fun c => c :: new) s
  | _ :: _ => replace_from old new 0 s
  end.

(** Truth value of a [str] or [bytes] object, and of an [Optional] one. *)
Definition truthy {A} (x : list A) : bool :=
  match x with [] => false | _ :: _ => true end.

Definition truthy_opt {A} (x : option (list A)) : bool :=
  match x with None => false | Some v => truthy v end.

End Py.

(** ** Audio *)

Definition bytes := list byte.

Module Wave.

Definition byte_of_Z (z : Z) : byte :=
  match Byte.of_N (Z.to_N (z mod 256)) with
  | Some b => b
  | None => x00
  end.

Definition le16 (z : Z) : bytes := [byte_of_Z z; byte_of_Z (z / 256)].

Definition le32 (z : Z) : bytes :=
  [byte_of_Z z; byte_of_Z (z / 256); byte_of_Z (z / 65536);
   byte_of_Z (z / 16777216)].

Definition tag (s : string) : bytes := list_byte_of_string s.

(** What [wave.open(buffer, 'wb')] leaves in the buffer after
    [setnchannels], [setsampwidth], [setframerate] and one
    [writeframes(samples)]: the 44 byte RIFF header of a PCM file, then
    the samples. *)
Definition write (nchannels sampwidth framerate : Z) (samples : bytes)
  : bytes :=
  let datalen := Z.of_nat (List.length samples) in
  tag "RIFF" ++ le32 (36 + datalen) ++ tag "WAVE" ++
  tag "fmt " ++ le32 16 ++ le16 1 ++ le16 nchannels ++ le32 framerate ++
  le32 (nchannels * framerate * sampwidth) ++
  le16 (nchannels * sampwidth) ++ le16 (sampwidth * 8) ++
  tag "data" ++ le32 datalen ++ samples.

End Wave.

(** Mono, 16 bit, 16 kHz: the format both handlers write. *)
Definition to_wav (samples : bytes) : bytes := Wave.write 1 2 16000 samples.

(** ** Floating point *)

(** Python's [float] is IEEE 754 binary64; its operations round to the
    nearest value, ties to even. *)
Module Binary64.

Definition prec : Z := 53.
Definition emax : Z := 1024.

(** [float(n)] *)
Definition of_int (n : Z) : spec_float := binary_normalize prec emax n 0 false.

(** [x * y] *)
Definition mul (x y : spec_float) : spec_float := SFmul prec emax x y.

(** The literal [0.1]: 0x1.999999999999ap-4. *)
Definition tenth : spec_float := S754_finite false 7205759403792794 (-56).

(** The number a float is, in lowest terms.  The infinities and NaN do
    not arise from the length of a text. *)
Definition to_Q (x : spec_float) : Q :=
  match x with
  | S754_finite s m e =>
      let magnitude :=
        match e with
        | Zneg p => Qred (Qmake (Zpos m) (Pos.pow 2 p))
        | _ => inject_Z (Zpos m * Z.pow 2 e)
        end in
      if s then Qopp magnitude else magnitude
  | _ => 0
  end.

End Binary64.

(** ** Exceptions, events and the inputs of a turn *)

(** Instances of Python's [Exception]: the faults a collaborator raises,
    and the two the interpreter raises on a missing attribute or index.
    Every [except Exception] clause of the source catches all of them. *)
Variant exn : Type :=
| AttributeError
| IndexError
| ServiceError (code : N).

(** pjsip's invitation states, as [onCallState] reads them from
    [getInfo().state]. *)
Variant InvState : Type :=
| PJSIP_INV_STATE_NULL
| PJSIP_INV_STATE_CALLING
| PJSIP_INV_STATE_INCOMING
| PJSIP_INV_STATE_EARLY
| PJSIP_INV_STATE_CONNECTING
| PJSIP_INV_STATE_CONFIRMED
| PJSIP_INV_STATE_DISCONNECTED.

(** The tasks the callbacks hand to [asyncio.create_task]. *)
Variant Task : Type := GreetingTask | ConversationTask | TranscriptionTask.

(** The awaits of the two handlers, and so the points at which the
    call-state callback can run while a turn is in flight. *)
Variant Stage : Type :=
| Capture | Transcribe | Plan | Synthesize | Play | Push
| GreetPause | IdlePause | EndPause | ErrorPause.

Definition Stage_eqb (a b : Stage) : bool :=
  match a, b with
  | Capture, Capture | Transcribe, Transcribe | Plan, Plan
  | Synthesize, Synthesize | Play, Play | Push, Push
  | GreetPause, GreetPause | IdlePause, IdlePause
  | EndPause, EndPause | ErrorPause, ErrorPause => true
  | _, _ => false
  end.

(** One entry of the chat request: [{"role": ..., "content": ...}]. *)
Record Message : Type := { role : pystr; content : pystr }.

(** What a handler asks of its collaborators, in the order it asks. *)
Variant Event : Type :=
| EvSleep (seconds : Q)
| EvGetData
| EvTranscription (file_name : pystr) (file : bytes)
| EvChat (messages : list Message)
| EvSpeech (input : pystr)
| EvTempFile (data : bytes)
| EvCreatePlayer (path : pystr)
| EvGetAudioMedia (index : Z)
| EvStartTransmit
| EvUnlink (path : pystr)
| EvHangup
| EvSendTranscript (args : list pystr)
| EvCallState (st : InvState).

(** What the collaborators answer during one turn of a loop.  A loop makes
    each of these requests at most once per turn. *)
Record TurnEnv : Type := {
  (** the await during which the remote party hangs up, if it does *)
  env_disconnect : option Stage;
  (** [recorder.getData()] *)
  env_getData : exn + bytes;
  (** [audio.transcriptions.create(...)]: the [text] of the response *)
  env_transcription : exn + pystr;
  (** [chat.completions.create(...)]: the [message.content] of each choice *)
  env_chat : exn + list (option pystr);
  (** [audio.speech.create(...)]: the [content] of the response *)
  env_speech : exn + bytes;
  (** [NamedTemporaryFile] and [write]: the name of the file *)
  env_tempfile : exn + pystr;
  env_createPlayer : exn + unit;
  env_getAudioMedia : exn + unit;
  env_startTransmit : exn + unit;
  env_unlink : exn + unit;
  env_hangup : exn + unit;
  env_send_transcript : exn + unit
}.

(** ** The monad of a handler: state, exceptions, trace *)

(** A handler class: its [onCallState] callback, as a change of the object
    and the tasks it creates. *)
Class PjCall (C : Type) : Type := {
  onCallState : InvState -> C -> C * list Task
}.

Section Monad.

Context {C : Type} `{PjCall C}.

Definition M (A : Type) : Type := C -> (exn + A) * C * list Event.

Definition ret {A} (a : A) : M A := fun c => (inr a, c, []).

Definition bind {A B} (m : M A) (f : A -> M B) : M B :=
  fun c =>
    match m c with
    | (inl e, c1, t1) => (inl e, c1, t1)
    | (inr a, c1, t1) =>
        match f a c1 with
        | (r, c2, t2) => (r, c2, t1 ++ t2)
        end
    end.

Definition raise {A} (e : exn) : M A := fun c => (inl e, c, []).

(** [try: m except Exception as e: h e] *)
Definition try_except {A} (m : M A) (h : exn -> M A) : M A :=
  fun c =>
    match m c with
    | (inr a, c1, t1) => (inr a, c1, t1)
    | (inl e, c1, t1) =>
        match h e c1 with
        | (r, c2, t2) => (r, c2, t1 ++ t2)
        end
    end.

Definition get : M C := fun c => (inr c, c, []).

Definition modify (f : C -> C) : M unit := fun c => (inr tt, f c, []).

Definition emit (ev : Event) : M unit := fun c => (inr tt, c, [ev]).

Definition lift {A} (r : exn + A) : M A := fun c => (r, c, []).

(** The loop is suspended at an await; if the remote party hangs up
    meanwhile, [onCallState] runs before the loop resumes. *)
Definition await (env : TurnEnv) (s : Stage) : M unit :=
  fun c =>
    match env_disconnect env with
    | Some s' =>
        if Stage_eqb s s'
        then (inr tt, fst (onCallState PJSIP_INV_STATE_DISCONNECTED c),
              [EvCallState PJSIP_INV_STATE_DISCONNECTED])
        else (inr tt, c, [])
    | None => (inr tt, c, [])
    end.

(** A synchronous call of a collaborator. *)
Definition invoke {A} (ev : Event) (r : exn + A) : M A :=
  bind (emit ev) (fun _ => lift r).

(** An awaited call of a collaborator. *)
Definition request {A} (env : TurnEnv) (s : Stage) (ev : Event)
    (r : TurnEnv -> exn + A) : M A :=
  bind (emit ev) (fun _ => bind (await env s) (fun _ => lift (r env))).

(** [await asyncio.sleep(seconds)] *)
Definition sleep (env : TurnEnv) (s : Stage) (seconds : Q) : M unit :=
  bind (emit (EvSleep seconds)) (fun _ => await env s).

End Monad.

Declare Scope monad_scope.
Delimit Scope monad_scope with monad.
Notation "x <- m ;; k" := (bind m (fun x => k))
  (at level 61, m at next level, right associativity) : monad_scope.
Notation "m ;; k" := (bind m (fun _ => k))
  (at level 61, right associativity) : monad_scope.
Open Scope monad_scope.

(** How a loop body ends: [Next] for falling off its end or [continue],
    [Break] for [break]. *)
Variant LoopCtl : Type := Next | Break.

(** A loop run against the answers of finitely many turns: it has returned,
    it is still looping when the answers end, or an exception has left it. *)
Variant LoopResult : Type :=
| Returned
| Running
| Raised (e : exn).

(** ** agent_bot.py *)

Variant Recorder : Type := AudioMediaRecorder.
Variant Player : Type := AudioMediaPlayer.

Module Agent.

Record AgentCall : Type := {
  system_prompt : pystr;
  recorder : option Recorder;
  player : option Player;
  conversation_history : list Message;
  is_active : bool
}.

Definition set_is_active (b : bool) (c : AgentCall) : AgentCall :=
  {| system_prompt := system_prompt c; recorder := recorder c;
     player := player c; conversation_history := conversation_history c;
     is_active := b |}.

(** [self.conversation_history.append(m)] *)
Definition history_append (m : Message) (c : AgentCall) : AgentCall :=
  {| system_prompt := system_prompt c; recorder := recorder c;
     player := player c;
     conversation_history := conversation_history c ++ [m];
     is_active := is_active c |}.

(** [AgentCall.onCallState] *)
Definition AgentCall_onCallState (st : InvState) (c : AgentCall)
  : AgentCall * list Task :=
  match st with
  | PJSIP_INV_STATE_CONFIRMED => (set_is_active true c, [GreetingTask])
  | PJSIP_INV_STATE_DISCONNECTED => (set_is_active false c, [])
  | _ => (c, [])
  end.

#[global] Instance AgentCall_PjCall : PjCall AgentCall :=
  {| onCallState := AgentCall_onCallState |}.

(** The fixed utterances and the marker of the source. *)
Definition greeting : pystr :=
  u "Guten Tag. Willkommen beim Stadtwerk. Wie kann ich Ihnen helfen?".
Definition no_audio_prompt : pystr :=
  u "Ich habe Sie nicht verstanden. Bitte wiederholen Sie.".
Definition no_text_prompt : pystr :=
  u "Entschuldigung, ich habe Sie nicht verstanden.".
Definition apology : pystr :=
  u "Es tut mir leid, es gab einen technischen Fehler.".
Definition ENDE : pystr := u "[ENDE]".

(** [len(text) * 0.1]: the length as a float, times the float [0.1],
    rounded as binary64 rounds; the result as the number it is. *)
Definition audio_duration (text : pystr) : Q :=
  Binary64.to_Q
    (Binary64.mul (Binary64.of_int (Z.of_nat (List.length text)))
       Binary64.tenth).

(** [AgentCall._listen_for_speech] *)
Definition _listen_for_speech (env : TurnEnv) (max_duration : Q)
  : M (option bytes) :=
  try_except
    (sleep env Capture max_duration ;;
     c <- get ;;
     samples <- match recorder c with
                | Some _ => invoke EvGetData (env_getData env)
                | None => raise AttributeError
                end ;;
     if negb (Py.truthy samples) then ret None
     else ret (Some (to_wav samples)))
    (fun _ => ret None).

(** [AgentCall._transcribe] *)
Definition _transcribe (env : TurnEnv) (audio_data : bytes)
  : M (option pystr) :=
  try_except
    (text <- request env Transcribe
               (EvTranscription (u "speech.wav") audio_data)
               env_transcription ;;
     ret (Some (Py.strip text)))
    (fun _ => ret None).

(** [AgentCall._generate_response] *)
Definition _generate_response (env : TurnEnv) : M (pystr * bool) :=
  try_except
    (c <- get ;;
     let messages :=
       {| role := u "system"; content := system_prompt c |}
         :: conversation_history c in
     choices <- request env Plan (EvChat messages) env_chat ;;
     first <- match choices with
              | ch :: _ => ret ch
              | [] => raise IndexError
              end ;;
     text <- match first with
             | Some s => ret s
             | None => raise AttributeError
             end ;;
     let response_text := Py.strip text in
     let should_end := Py.contains ENDE response_text in
     let response_text := Py.strip (Py.replace ENDE [] response_text) in
     ret (response_text, should_end))
    (fun _ => ret (apology, true)).

(** [AgentCall._speak] *)
Definition _speak (env : TurnEnv) (text : pystr) : M unit :=
  try_except
    (audio_data <- request env Synthesize (EvSpeech text) env_speech ;;
     tmp_path <- invoke (EvTempFile audio_data) (env_tempfile env) ;;
     c <- get ;;
     match player c with
     | Some _ =>
         invoke (EvCreatePlayer tmp_path) (env_createPlayer env) ;;
         invoke (EvGetAudioMedia (-1)) (env_getAudioMedia env) ;;
         invoke EvStartTransmit (env_startTransmit env) ;;
         sleep env Play (audio_duration text)
     | None => ret tt
     end ;;
     invoke (EvUnlink tmp_path) (env_unlink env))
    (fun _ => ret tt).

(** [AgentCall._send_greeting] *)
Definition _send_greeting (env : TurnEnv) : M unit :=
  sleep env GreetPause (1 # 2) ;;
  _speak env greeting.

(** The statements inside the [try] of [_conversation_loop]. *)
Definition turn (env : TurnEnv) : M LoopCtl :=
  audio_data <- _listen_for_speech env 10 ;;
  match audio_data with
  | Some (b :: r) =>
      user_text <- _transcribe env (b :: r) ;;
      match user_text with
      | Some (ch :: s) =>
          modify (history_append
                    {| role := u "user"; content := ch :: s |}) ;;
          res <- _generate_response env ;;
          let '(response_text, should_end) := res in
          modify (history_append
                    {| role := u "assistant"; content := response_text |}) ;;
          _speak env response_text ;;
          if should_end : bool then
            sleep env EndPause 1 ;;
            invoke EvHangup (env_hangup env) ;;
            ret Break
          else ret Next
      | _ =>
          _speak env no_text_prompt ;;
          ret Next
      end
  | _ =>
      _speak env no_audio_prompt ;;
      ret Next
  end.

(** The body of the [while]: the [try] and its [except Exception]. *)
Definition loop_body (env : TurnEnv) : M LoopCtl :=
  try_except (turn env) (fun _ => sleep env ErrorPause 1 ;; ret Next).

(** [AgentCall._conversation_loop], one element of [script] per turn. *)
Fixpoint _conversation_loop (script : list TurnEnv) (c : AgentCall)
  : LoopResult * AgentCall * list Event :=
  if is_active c then
    match script with
    | [] => (Running, c, [])
    | env :: rest =>
        match loop_body env c with
        | (inl e, c1, t1) => (Raised e, c1, t1)
        | (inr Break, c1, t1) => (Returned, c1, t1)
        | (inr Next, c1, t1) =>
            match _conversation_loop rest c1 with
            | (r, c2, t2) => (r, c2, t1 ++ t2)
            end
        end
    end
  else (Returned, c, []).

End Agent.

(** ** transcription_bot.py *)

(** The object passed as [ws_sender]; the loop only calls its
    [send_transcript]. *)
Variant Sender : Type := WsSender.

Module Transcription.

Record TranscriptionCall : Type := {
  ws_sender : option Sender;
  recorder : option Recorder;
  is_recording : bool
}.

Definition set_is_recording (b : bool) (c : TranscriptionCall)
  : TranscriptionCall :=
  {| ws_sender := ws_sender c; recorder := recorder c; is_recording := b |}.

(** [TranscriptionCall.onCallState] *)
Definition TranscriptionCall_onCallState (st : InvState)
    (c : TranscriptionCall) : TranscriptionCall * list Task :=
  match st with
  | PJSIP_INV_STATE_DISCONNECTED => (set_is_recording false c, [])
  | _ => (c, [])
  end.

#[global] Instance TranscriptionCall_PjCall : PjCall TranscriptionCall :=
  {| onCallState := TranscriptionCall_onCallState |}.

Definition chunk_duration : Q := 2.

(** [TranscriptionCall._get_audio_chunk]; it awaits nothing and leaves
    [duration] unused. *)
Definition _get_audio_chunk (env : TurnEnv) (duration : Q)
  : M (option bytes) :=
  try_except
    (c <- get ;;
     samples <- match recorder c with
                | Some _ => invoke EvGetData (env_getData env)
                | None => raise AttributeError
                end ;;
     if negb (Py.truthy samples) then ret None
     else ret (Some (to_wav samples)))
    (fun _ => ret None).

(** [TranscriptionCall._transcribe_audio] *)
Definition _transcribe_audio (env : TurnEnv) (audio_data : bytes)
  : M (option pystr) :=
  try_except
    (text <- request env Transcribe
               (EvTranscription (u "audio.wav") audio_data)
               env_transcription ;;
     ret (Some (Py.strip text)))
    (fun _ => ret None).

(** [await self.ws_sender.send_transcript(transcript)] *)
Definition send_transcript (env : TurnEnv) (transcript : pystr) : M unit :=
  c <- get ;;
  match ws_sender c with
  | Some _ =>
      request env Push (EvSendTranscript [transcript]) env_send_transcript
  | None => raise AttributeError
  end.

(** The statements inside the [try] of [_transcription_loop]. *)
Definition turn (env : TurnEnv) : M LoopCtl :=
  audio_data <- _get_audio_chunk env chunk_duration ;;
  match audio_data with
  | Some (b :: r) =>
      transcript <- _transcribe_audio env (b :: r) ;;
      match transcript with
      | Some (ch :: s) => send_transcript env (ch :: s) ;; ret Next
      | _ => ret Next
      end
  | _ =>
      sleep env IdlePause (Binary64.to_Q Binary64.tenth) ;;
      ret Next
  end.

(** The body of the [while]: the [try] and its [except Exception]. *)
Definition loop_body (env : TurnEnv) : M LoopCtl :=
  try_except (turn env) (fun _ => sleep env ErrorPause 1 ;; ret Next).

(** [TranscriptionCall._transcription_loop], one element of [script] per
    turn. *)
Fixpoint _transcription_loop (script : list TurnEnv) (c : TranscriptionCall)
  : LoopResult * TranscriptionCall * list Event :=
  if is_recording c then
    match script with
    | [] => (Running, c, [])
    | env :: rest =>
        match loop_body env c with
        | (inl e, c1, t1) => (Raised e, c1, t1)
        | (inr Break, c1, t1) => (Returned, c1, t1)
        | (inr Next, c1, t1) =>
            match _transcription_loop rest c1 with
            | (r, c2, t2) => (r, c2, t1 ++ t2)
            end
        end
    end
  else (Returned, c, []).

End Transcription.

(** ** Inputs used in the examples *)

(** Every collaborator answers; nobody hangs up. *)
Definition calm (samples : bytes) (text : pystr) (reply : pystr) : TurnEnv :=
  {| env_disconnect := None;
     env_getData := inr samples;
     env_transcription := inr text;
     env_chat := inr [Some reply];
     env_speech := inr [x49; x44; x33];
     env_tempfile := inr (u "/tmp/tmpa1.mp3");
     env_createPlayer := inr tt;
     env_getAudioMedia := inr tt;
     env_startTransmit := inr tt;
     env_unlink := inr tt;
     env_hangup := inr tt;
     env_send_transcript := inr tt |}.

Definition with_disconnect (s : Stage) (env : TurnEnv) : TurnEnv :=
  {| env_disconnect := Some s;
     env_getData := env_getData env;
     env_transcription := env_transcription env;
     env_chat := env_chat env;
     env_speech := env_speech env;
     env_tempfile := env_tempfile env;
     env_createPlayer := env_createPlayer env;
     env_getAudioMedia := env_getAudioMedia env;
     env_startTransmit := env_startTransmit env;
     env_unlink := env_unlink env;
     env_hangup := env_hangup env;
     env_send_transcript := env_send_transcript env |}.

Definition with_transcription (r : exn + pystr) (env : TurnEnv) : TurnEnv :=
  {| env_disconnect := env_disconnect env;
     env_getData := env_getData env;
     env_transcription := r;
     env_chat := env_chat env;
     env_speech := env_speech env;
     env_tempfile := env_tempfile env;
     env_createPlayer := env_createPlayer env;
     env_getAudioMedia := env_getAudioMedia env;
     env_startTransmit := env_startTransmit env;
     env_unlink := env_unlink env;
     env_hangup := env_hangup env;
     env_send_transcript := env_send_transcript env |}.

Definition with_chat (r : exn + list (option pystr)) (env : TurnEnv)
  : TurnEnv :=
  {| env_disconnect := env_disconnect env;
     env_getData := env_getData env;
     env_transcription := env_transcription env;
     env_chat := r;
     env_speech := env_speech env;
     env_tempfile := env_tempfile env;
     env_createPlayer := env_createPlayer env;
     env_getAudioMedia := env_getAudioMedia env;
     env_startTransmit := env_startTransmit env;
     env_unlink := env_unlink env;
     env_hangup := env_hangup env;
     env_send_transcript := env_send_transcript env |}.

(** A connected agent call with its media attached. *)
Definition agent0 : Agent.AgentCall :=
  {| Agent.system_prompt :=
       u "Du bist ein freundlicher Mitarbeiter beim Stadtwerk.";
     Agent.recorder := Some AudioMediaRecorder;
     Agent.player := Some AudioMediaPlayer;
     Agent.conversation_history := [];
     Agent.is_active := true |}.

(** A transcription call that is recording. *)
Definition monitor0 : Transcription.TranscriptionCall :=
  {| Transcription.ws_sender := Some WsSender;
     Transcription.recorder := Some AudioMediaRecorder;
     Transcription.is_recording := true |}.

Definition pcm : bytes := [x01; x00; x02; x00].

Definition with_getData (r : exn + bytes) (env : TurnEnv) : TurnEnv :=
  {| env_disconnect := env_disconnect env;
     env_getData := r;
     env_transcription := env_transcription env;
     env_chat := env_chat env;
     env_speech := env_speech env;
     env_tempfile := env_tempfile env;
     env_createPlayer := env_createPlayer env;
     env_getAudioMedia := env_getAudioMedia env;
     env_startTransmit := env_startTransmit env;
     env_unlink := env_unlink env;
     env_hangup := env_hangup env;
     env_send_transcript := env_send_transcript env |}.

Definition with_speech (r : exn + bytes) (env : TurnEnv) : TurnEnv :=
  {| env_disconnect := env_disconnect env;
     env_getData := env_getData env;
     env_transcription := env_transcription env;
     env_chat := env_chat env;
     env_speech := r;
     env_tempfile := env_tempfile env;
     env_createPlayer := env_createPlayer env;
     env_getAudioMedia := env_getAudioMedia env;
     env_startTransmit := env_startTransmit env;
     env_unlink := env_unlink env;
     env_hangup := env_hangup env;
     env_send_transcript := env_send_transcript env |}.

(** ** Reading a trace and a turn's inputs *)

(** The requests that reach a service, the sink or the signaling stack;
    the rest of a trace is local bookkeeping. *)
Definition is_request (ev : Event) : bool :=
  match ev with
  | EvTranscription _ _ | EvChat _ | EvSpeech _ | EvHangup
  | EvSendTranscript _ => true
  | _ => false
  end.

Definition requests (t : list Event) : list Event := filter is_request t.

Definition is_signal (ev : Event) : bool :=
  match ev with
  | EvCallState PJSIP_INV_STATE_DISCONNECTED => true
  | _ => false
  end.

(** The remote party has hung up somewhere in [t]. *)
Definition signalled (t : list Event) : bool := existsb is_signal t.

(** The texts handed to the speech service. *)
Definition speeches (t : list Event) : list pystr :=
  flat_map (fun ev => match ev with EvSpeech s => [s] | _ => [] end) t.

(** The argument lists of the calls of [send_transcript]. *)
Definition pushes (t : list Event) : list (list pystr) :=
  flat_map (fun ev => match ev with EvSendTranscript a => [a] | _ => [] end)
           t.

Definition chats (t : list Event) : list (list Message) :=
  flat_map (fun ev => match ev with EvChat m => [m] | _ => [] end) t.

Definition transcriptions (t : list Event) : list bytes :=
  flat_map (fun ev => match ev with EvTranscription _ a => [a] | _ => [] end)
           t.

Definition hangups (t : list Event) : nat :=
  List.length (filter (fun ev => match ev with EvHangup => true
                                          | _ => false end) t).

(** The events that open a stage after capture. *)
Definition opens_stage (ev : Event) : bool :=
  match ev with
  | EvTranscription _ _ | EvChat _ | EvSpeech _ | EvCreatePlayer _ => true
  | _ => false
  end.

(** A trace of a loop that polls the flag at every stage boundary: once
    the remote party has hung up, no further stage is opened. *)
Fixpoint stops_at_boundary (t : list Event) : bool :=
  match t with
  | [] => true
  | ev :: r =>
      if is_signal ev then forallb (fun e => negb (opens_stage e)) r
      else stops_at_boundary r
  end.

(** The object after the callbacks of [t] have run. *)
Definition after {C} `{PjCall C} (t : list Event) (c : C) : C :=
  if signalled t then fst (onCallState PJSIP_INV_STATE_DISCONNECTED c)
  else c.

(** Nobody hangs up during the turn. *)
Definition quiet (env : TurnEnv) : bool :=
  match env_disconnect env with None => true | Some _ => false end.

(** The recorder hands over samples. *)
Definition hears (env : TurnEnv) : bool :=
  match env_getData env with inr (_ :: _) => true | _ => false end.

(** The recorder hands over nothing, or fails. *)
Definition no_audio (env : TurnEnv) : bool := negb (hears env).

(** The speech-to-text service raises. *)
Definition stt_fails (env : TurnEnv) : bool :=
  match env_transcription env with inl _ => true | inr _ => false end.

(** The chat service raises. *)
Definition chat_fails (env : TurnEnv) : bool :=
  match env_chat env with inl _ => true | inr _ => false end.

Definition result {C A} (x : (exn + A) * C * list Event) : exn + A :=
  fst (fst x).
Definition final {C A} (x : A * C * list Event) : C := snd (fst x).
Definition trace {C A} (x : A * C * list Event) : list Event := snd x.

(** What [_listen_for_speech] returns, read off the recorder. *)
Definition heard (env : TurnEnv) (c : Agent.AgentCall) : option bytes :=
  match Agent.recorder c, env_getData env with
  | Some _, inr (b :: s) => Some (to_wav (b :: s))
  | _, _ => None
  end.

(** What [_transcribe] returns, read off the service's answer. *)
Definition transcribed (env : TurnEnv) : option pystr :=
  match env_transcription env with
  | inr text => Some (Py.strip text)
  | inl _ => None
  end.

(** What [_generate_response] returns, read off the service's answer. *)
Definition planned (env : TurnEnv) : pystr * bool :=
  match env_chat env with
  | inr (Some s :: _) =>
      (Py.strip (Py.replace Agent.ENDE [] (Py.strip s)),
       Py.contains Agent.ENDE (Py.strip s))
  | _ => (Agent.apology, true)
  end.

(** The chat request of a call: the persona, then the history. *)
Definition chat_request (c : Agent.AgentCall) : Event :=
  EvChat ({| role := u "system"; content := Agent.system_prompt c |}
            :: Agent.conversation_history c).

(** The two entries a full turn appends to the history. *)
Definition user_says (text : pystr) : Message :=
  {| role := u "user"; content := text |}.
Definition agent_says (text : pystr) : Message :=
  {| role := u "assistant"; content := text |}.

(** What [_get_audio_chunk] returns, read off the recorder. *)
Definition chunk (env : TurnEnv) (c : Transcription.TranscriptionCall)
  : option bytes :=
  match Transcription.recorder c, env_getData env with
  | Some _, inr (b :: s) => Some (to_wav (b :: s))
  | _, _ => None
  end.

(** The requests of a turn whose transcription failed. *)
Definition failed_turn_requests (c : Agent.AgentCall) (env : TurnEnv)
  : list Event :=
  match heard env c with
  | Some a => [EvTranscription (u "speech.wav") a;
               EvSpeech Agent.no_text_prompt]
  | None => []
  end.

(** ** The rest of the two handlers *)

(** The files a trace creates and removes. *)
Definition tempfiles (t : list Event) : list bytes :=
  flat_map (fun ev => match ev with EvTempFile d => [d] | _ => [] end) t.

Definition unlinks (t : list Event) : list pystr :=
  flat_map (fun ev => match ev with EvUnlink p => [p] | _ => [] end) t.

Definition sleeps (t : list Event) : list Q :=
  flat_map (fun ev => match ev with EvSleep d => [d] | _ => [] end) t.



(** [AgentCall.__init__] *)
Definition AgentCall__init__ (system_prompt : pystr) : Agent.AgentCall :=
  {| Agent.system_prompt := system_prompt;
     Agent.recorder := None;
     Agent.player := None;
     Agent.conversation_history := [];
     Agent.is_active := false |}.

(** [TranscriptionCall.__init__] *)
Definition TranscriptionCall__init__ (ws_sender : option Sender)
  : Transcription.TranscriptionCall :=
  {| Transcription.ws_sender := ws_sender;
     Transcription.recorder := None;
     Transcription.is_recording := false |}.

Variant MediaType : Type :=
| PJMEDIA_TYPE_NONE
| PJMEDIA_TYPE_AUDIO
| PJMEDIA_TYPE_VIDEO
| PJMEDIA_TYPE_APPLICATION
| PJMEDIA_TYPE_UNKNOWN.

Variant MediaStatus : Type :=
| PJSUA_CALL_MEDIA_NONE
| PJSUA_CALL_MEDIA_ACTIVE
| PJSUA_CALL_MEDIA_LOCAL_HOLD
| PJSUA_CALL_MEDIA_REMOTE_HOLD
| PJSUA_CALL_MEDIA_ERROR.

(** One entry of [getInfo().media], and what the stack answers when the
    callback works on it. *)
Record MediaInfo : Type := {
  mi_type : MediaType;
  mi_status : MediaStatus;
  mi_index : Z;
  (** [self.getAudioMedia(mi.index)] *)
  mi_getAudioMedia : exn + unit;
  (** [aud_media.startTransmit(self.recorder)] *)
  mi_startTransmit_recorder : exn + unit;
  (** [self.player.startTransmit(aud_media)] *)
  mi_startTransmit_player : exn + unit
}.

(** [mi.type == pj.PJMEDIA_TYPE_AUDIO and
     mi.status == pj.PJSUA_CALL_MEDIA_ACTIVE] *)
Definition audio_active (mi : MediaInfo) : bool :=
  match mi_type mi, mi_status mi with
  | PJMEDIA_TYPE_AUDIO, PJSUA_CALL_MEDIA_ACTIVE => true
  | _, _ => false
  end.

Definition set_agent_recorder (c : Agent.AgentCall) : Agent.AgentCall :=
  {| Agent.system_prompt := Agent.system_prompt c;
     Agent.recorder := Some AudioMediaRecorder;
     Agent.player := Agent.player c;
     Agent.conversation_history := Agent.conversation_history c;
     Agent.is_active := Agent.is_active c |}.

Definition set_agent_player (c : Agent.AgentCall) : Agent.AgentCall :=
  {| Agent.system_prompt := Agent.system_prompt c;
     Agent.recorder := Agent.recorder c;
     Agent.player := Some AudioMediaPlayer;
     Agent.conversation_history := Agent.conversation_history c;
     Agent.is_active := Agent.is_active c |}.

Definition set_monitor_recorder (c : Transcription.TranscriptionCall)
  : Transcription.TranscriptionCall :=
  {| Transcription.ws_sender := Transcription.ws_sender c;
     Transcription.recorder := Some AudioMediaRecorder;
     Transcription.is_recording := Transcription.is_recording c |}.

(** A callback runs on the call object and on the tasks created so far by
    [asyncio.create_task]. *)
Definition create_task {C} (k : Task) : @M (C * list Task) unit :=
  modify (fun s => (fst s, snd s ++ [k])).

Definition on_call {C} (f : C -> C) : @M (C * list Task) unit :=
  modify (fun s => (f (fst s), snd s)).

(** [AgentCall.onCallMediaState], [media] being [getInfo().media]. *)
Fixpoint AgentCall_onCallMediaState (media : list MediaInfo)
  : @M (Agent.AgentCall * list Task) unit :=
  match media with
  | [] => ret tt
  | mi :: rest =>
      (if audio_active mi then
         invoke (EvGetAudioMedia (mi_index mi)) (mi_getAudioMedia mi) ;;
         on_call set_agent_recorder ;;
         invoke EvStartTransmit (mi_startTransmit_recorder mi) ;;
         on_call set_agent_player ;;
         invoke EvStartTransmit (mi_startTransmit_player mi) ;;
         create_task ConversationTask
       else ret tt) ;;
      AgentCall_onCallMediaState rest
  end.

(** [TranscriptionCall.onCallMediaState] *)
Fixpoint TranscriptionCall_onCallMediaState (media : list MediaInfo)
  : @M (Transcription.TranscriptionCall * list Task) unit :=
  match media with
  | [] => ret tt
  | mi :: rest =>
      (if audio_active mi then
         invoke (EvGetAudioMedia (mi_index mi)) (mi_getAudioMedia mi) ;;
         on_call set_monitor_recorder ;;
         invoke EvStartTransmit (mi_startTransmit_recorder mi) ;;
         on_call (Transcription.set_is_recording true) ;;
         create_task TranscriptionTask
       else ret tt) ;;
      TranscriptionCall_onCallMediaState rest
  end.

(** An entry of [getInfo().media] for which the stack answers. *)
Definition media (ty : MediaType) (st : MediaStatus) (i : Z) : MediaInfo :=
  {| mi_type := ty; mi_status := st; mi_index := i;
     mi_getAudioMedia := inr tt;
     mi_startTransmit_recorder := inr tt;
     mi_startTransmit_player := inr tt |}.

(** The stack answers every call the callback makes for [mi]. *)
Definition answered (mi : MediaInfo) : bool :=
  match mi_getAudioMedia mi, mi_startTransmit_recorder mi,
        mi_startTransmit_player mi with
  | inr _, inr _, inr _ => true
  | _, _, _ => false
  end.

(** ** main.py *)

Module Main.

Fixpoint pystr_eqb (a b : pystr) : bool :=
  match a, b with
  | [], [] => true
  | x :: a', y :: b' => (x =? y)%N && pystr_eqb a' b'
  | _, _ => false
  end.

(** The process environment once [load_dotenv()] has run: what
    [os.getenv] finds under a name. *)
Definition Environ : Type := pystr -> option pystr.

(** [os.getenv(name, default)] *)
Definition getenv (environ : Environ) (name : pystr)
    (default : option pystr) : option pystr :=
  match environ name with
  | Some v => Some v
  | None => default
  end.

(** The [config] dict: its items in the order they are written. *)
Definition Config : Type := list (pystr * option pystr).

(** [config[key]]; [None] stands for [KeyError]. *)
Fixpoint lookup (key : pystr) (config : Config) : option (option pystr) :=
  match config with
  | [] => None
  | (k, v) :: rest => if pystr_eqb key k then Some v else lookup key rest
  end.

Definition default_prompt : pystr :=
  u "Du bist ein freundlicher Mitarbeiter beim Stadtwerk.".

Definition load_config (environ : Environ) : Config :=
  [(u "sip_domain", getenv environ (u "SIP_DOMAIN") None);
   (u "sip_username", getenv environ (u "SIP_USERNAME") None);
   (u "sip_password", getenv environ (u "SIP_PASSWORD") None);
   (u "openai_api_key", getenv environ (u "OPENAI_API_KEY") None);
   (u "backend_ws_url", getenv environ (u "BACKEND_WS_URL") None);
   (u "bot_mode", getenv environ (u "BOT_MODE") (Some (u "transcription")));
   (u "ai_system_prompt",
    getenv environ (u "AI_AGENT_SYSTEM_PROMPT") (Some default_prompt))].

Definition required_fields : list pystr :=
  [u "sip_domain"; u "sip_username"; u "sip_password"; u "openai_api_key"].

Variant Failure : Type :=
| ValueError (msg : pystr)
| KeyError (key : pystr).

(** The loop over [required_fields]. *)
Fixpoint validate (config : Config) (fields : list pystr)
  : Failure + unit :=
  match fields with
  | [] => inr tt
  | field :: rest =>
      match lookup field config with
      | None => inl (KeyError field)
      | Some v =>
          if negb (Py.truthy_opt v)
          then inl (ValueError
                      (u "Missing required configuration: " ++ field))
          else validate config rest
      end
  end.

(** The bot [main] constructs. *)
Variant Bot : Type :=
| TranscriptionBot (config : Config)
| AgentBot (config : Config).

(** [str(x)] of an optional string inside an f-string. *)
Definition format (x : option pystr) : pystr :=
  match x with Some s => s | None => u "None" end.

(** [x == 'literal'] for an optional string [x]. *)
Definition equals (x : option pystr) (literal : pystr) : bool :=
  match x with Some s => pystr_eqb s literal | None => false end.

(** [main], up to the call of [bot.start()]: the bot it is about to start,
    or the exception it logs and raises again. *)
Definition main (environ : Environ) : Failure + Bot :=
  let config := load_config environ in
  match validate config required_fields with
  | inl e => inl e
  | inr _ =>
      match lookup (u "bot_mode") config with
      | None => inl (KeyError (u "bot_mode"))
      | Some mode =>
          if equals mode (u "transcription")
          then inr (TranscriptionBot config)
          else if equals mode (u "agent")
          then inr (AgentBot config)
          else inl (ValueError (u "Invalid BOT_MODE: " ++ format mode))
      end
  end.

(** An environment given by its items. *)
Fixpoint environ_of (items : list (pystr * pystr)) : Environ :=
  fun name =>
    match items with
    | [] => None
    | (k, v) :: rest =>
        if pystr_eqb name k then Some v else environ_of rest name
    end.

End Main.

(** [createPlayer], [getAudioMedia] and [startTransmit] all answer. *)
Definition playback_starts (env : TurnEnv) : bool :=
  match env_createPlayer env, env_getAudioMedia env,
        env_startTransmit env with
  | inr _, inr _, inr _ => true
  | _, _, _ => false
  end.

(** The player cannot be created. *)
Definition broken_player : TurnEnv :=
  {| env_disconnect := None;
     env_getData := inr pcm;
     env_transcription := inr (u "Hallo");
     env_chat := inr [Some (u "Ja")];
     env_speech := inr [x49];
     env_tempfile := inr (u "/tmp/a.mp3");
     env_createPlayer := inl (ServiceError 70009);
     env_getAudioMedia := inr tt;
     env_startTransmit := inr tt;
     env_unlink := inr tt;
     env_hangup := inr tt;
     env_send_transcript := inr tt |}.

(** The chat service is down and the stack refuses to hang up. *)
Definition stubborn_stack : TurnEnv :=
  {| env_disconnect := None;
     env_getData := inr pcm;
     env_transcription := inr (u "Hallo");
     env_chat := inl (ServiceError 503);
     env_speech := inr [x49];
     env_tempfile := inr (u "/tmp/a.mp3");
     env_createPlayer := inr tt;
     env_getAudioMedia := inr tt;
     env_startTransmit := inr tt;
     env_unlink := inr tt;
     env_hangup := inl (ServiceError 70004);
     env_send_transcript := inr tt |}.

(** The required fields of [main] and the variables they are read from. *)
Definition required_variables : list (pystr * pystr) :=
  [(u "sip_domain", u "SIP_DOMAIN");
   (u "sip_username", u "SIP_USERNAME");
   (u "sip_password", u "SIP_PASSWORD");
   (u "openai_api_key", u "OPENAI_API_KEY")].

(** The variable is set, and not to the empty string. *)
Definition is_set (environ : Main.Environ) (name : pystr) : bool :=
  Py.truthy_opt (environ name).

(** ** A turn with and without a hang-up *)

(** The same answers, but nobody hangs up. *)
Definition undisturbed (env : TurnEnv) : TurnEnv :=
  {| env_disconnect := None;
     env_getData := env_getData env;
     env_transcription := env_transcription env;
     env_chat := env_chat env;
     env_speech := env_speech env;
     env_tempfile := env_tempfile env;
     env_createPlayer := env_createPlayer env;
     env_getAudioMedia := env_getAudioMedia env;
     env_startTransmit := env_startTransmit env;
     env_unlink := env_unlink env;
     env_hangup := env_hangup env;
     env_send_transcript := env_send_transcript env |}.

(** A trace without the callbacks in it. *)
Definition hush (t : list Event) : list Event :=
  filter (fun ev => negb (is_signal ev)) t.

(** The object, after the disconnect callback if [b]. *)
Definition flagged {C} `{PjCall C} (b : bool) (c : C) : C :=
  if b then fst (onCallState PJSIP_INV_STATE_DISCONNECTED c) else c.

(** [m], run on an object on which the disconnect callback may have run
    already, does what [m0] does on the object itself, apart from the
    callbacks that run during [m]: the same result, the same events in
    the same order, the same object but for the effect of the
    callbacks. *)
Definition follows {C} `{PjCall C} {A} (c : C) (b : bool) (m m0 : M A)
  : Prop :=
  result (m (flagged b c)) = result (m0 c)
  /\ hush (trace (m (flagged b c))) = trace (m0 c)
  /\ final (m (flagged b c))
     = flagged (b || signalled (trace (m (flagged b c)))) (final (m0 c)).

(** How often a trace starts the player. *)
Definition playbacks (t : list Event) : nat :=
  List.length (filter (fun ev => match ev with EvCreatePlayer _ => true
                                          | _ => false end) t).

(** * Facts *)

(** ** Traces *)

Lemma requests_app (t1 t2 : list Event) :
  requests (t1 ++ t2) = requests t1 ++ requests t2.
Proof. apply filter_app. Qed.

Lemma signalled_app (t1 t2 : list Event) :
  signalled (t1 ++ t2) = signalled t1 || signalled t2.
Proof. apply existsb_app. Qed.

Lemma speeches_app (t1 t2 : list Event) :
  speeches (t1 ++ t2) = speeches t1 ++ speeches t2.
Proof. apply flat_map_app. Qed.

Lemma pushes_app (t1 t2 : list Event) :
  pushes (t1 ++ t2) = pushes t1 ++ pushes t2.
Proof. apply flat_map_app. Qed.

Lemma request_not_signal (ev : Event) :
  is_request ev = true -> is_signal ev = false.
Proof. destruct ev; simpl; congruence. Qed.

(** The projections of a trace only look at its requests. *)
Lemma speeches_requests (t : list Event) : speeches (requests t) = speeches t.
Proof.
  induction t as [|ev t IH]; [reflexivity|].
  destruct ev; simpl; rewrite ?IH; reflexivity.
Qed.

Lemma pushes_requests (t : list Event) : pushes (requests t) = pushes t.
Proof.
  induction t as [|ev t IH]; [reflexivity|].
  destruct ev; simpl; rewrite ?IH; reflexivity.
Qed.

Lemma chats_requests (t : list Event) : chats (requests t) = chats t.
Proof.
  induction t as [|ev t IH]; [reflexivity|].
  destruct ev; simpl; rewrite ?IH; reflexivity.
Qed.

Lemma transcriptions_requests (t : list Event) :
  transcriptions (requests t) = transcriptions t.
Proof.
  induction t as [|ev t IH]; [reflexivity|].
  destruct ev; simpl; rewrite ?IH; reflexivity.
Qed.

Lemma hangups_requests (t : list Event) : hangups (requests t) = hangups t.
Proof.
  unfold hangups.
  induction t as [|ev t IH]; [reflexivity|].
  destruct ev; simpl; rewrite ?IH; reflexivity.
Qed.

(** ** The primitives of the monad *)

Section Primitives.

Context {C : Type} `{PjCall C}.

(** Hanging up twice is hanging up once. *)
Hypothesis hang_up_twice : forall c : C,
  fst (onCallState PJSIP_INV_STATE_DISCONNECTED
         (fst (onCallState PJSIP_INV_STATE_DISCONNECTED c)))
  = fst (onCallState PJSIP_INV_STATE_DISCONNECTED c).

Lemma after_nil (c : C) : after [] c = c.
Proof. reflexivity. Qed.

Lemma after_app (t1 t2 : list Event) (c : C) :
  after t2 (after t1 c) = after (t1 ++ t2) c.
Proof.
  unfold after. rewrite signalled_app.
  destruct (signalled t1), (signalled t2); simpl; auto.
Qed.

Lemma after_quiet (t : list Event) (c : C) :
  signalled t = false -> after t c = c.
Proof. unfold after. intros ->. reflexivity. Qed.

Lemma await_spec (env : TurnEnv) (s : Stage) (c : C) :
  exists t, await env s c = (inr tt, after t c, t)
            /\ requests t = []
            /\ (quiet env = true -> t = []).
Proof.
  unfold await, quiet.
  destruct (env_disconnect env) as [s'|].
  - destruct (Stage_eqb s s').
    + exists [EvCallState PJSIP_INV_STATE_DISCONNECTED].
      split; [reflexivity|]. split; [reflexivity|discriminate].
    + exists []. auto.
  - exists []. auto.
Qed.

Lemma sleep_spec (env : TurnEnv) (s : Stage) (d : Q) (c : C) :
  exists t, sleep env s d c = (inr tt, after t c, t)
            /\ requests t = []
            /\ (quiet env = true -> signalled t = false).
Proof.
  unfold sleep, bind, emit.
  destruct (await_spec env s c) as (t & E & R & Qt).
  rewrite E. exists (EvSleep d :: t). repeat split.
  - exact R.
  - intros q. rewrite (Qt q). reflexivity.
Qed.

Lemma request_spec {A} (env : TurnEnv) (s : Stage) (ev : Event)
    (r : TurnEnv -> exn + A) (c : C) :
  is_request ev = true ->
  exists t, request env s ev r c = (r env, after t c, t)
            /\ requests t = [ev]
            /\ (quiet env = true -> signalled t = false).
Proof.
  intros Hev. unfold request, bind, emit, lift.
  destruct (await_spec env s c) as (t & E & R & Qt).
  rewrite E. exists (ev :: t ++ []).
  assert (Hc : after (ev :: t ++ []) c = after t c).
  { unfold after, signalled. simpl. rewrite (request_not_signal _ Hev).
    rewrite app_nil_r. reflexivity. }
  rewrite Hc. destruct (r env); (split; [reflexivity|]); split.
  all: try (unfold requests; simpl; rewrite Hev, app_nil_r;
            fold (requests t); rewrite R; reflexivity).
  all: intros q; rewrite (Qt q); unfold signalled; simpl;
       rewrite (request_not_signal _ Hev); reflexivity.
Qed.

End Primitives.

(** ** Hanging up during a computation *)

Lemma hush_app (t1 t2 : list Event) : hush (t1 ++ t2) = hush t1 ++ hush t2.
Proof. apply filter_app. Qed.

Section Undisturbed.

Context {C : Type} `{PjCall C}.

Hypothesis hang_up_twice : forall c : C,
  fst (onCallState PJSIP_INV_STATE_DISCONNECTED
         (fst (onCallState PJSIP_INV_STATE_DISCONNECTED c)))
  = fst (onCallState PJSIP_INV_STATE_DISCONNECTED c).

Lemma follows_ret {A} (a : A) (c : C) (b : bool) :
  follows c b (ret a) (ret a).
Proof.
  unfold follows, ret. cbn. rewrite orb_false_r. auto.
Qed.

Lemma follows_raise {A} (e : exn) (c : C) (b : bool) :
  follows c b (@raise C A e) (raise e).
Proof.
  unfold follows, raise. cbn. rewrite orb_false_r. auto.
Qed.

Lemma follows_lift {A} (r : exn + A) (c : C) (b : bool) :
  follows c b (lift r) (lift r).
Proof.
  unfold follows, lift. cbn. rewrite orb_false_r. auto.
Qed.

Lemma follows_emit (ev : Event) (c : C) (b : bool) :
  is_signal ev = false -> follows c b (emit ev) (emit ev).
Proof.
  intros Hev. unfold follows, emit, hush, signalled. cbn.
  rewrite Hev. cbn. rewrite orb_false_r. auto.
Qed.

Lemma follows_modify (g : C -> C) (c : C) (b : bool) :
  (forall b' c', g (flagged b' c') = flagged b' (g c')) ->
  follows c b (modify g) (modify g).
Proof.
  intros Hg. unfold follows, modify. cbn. rewrite orb_false_r, Hg. auto.
Qed.

Lemma follows_await (env : TurnEnv) (s : Stage) (c : C) (b : bool) :
  follows c b (await env s) (await (undisturbed env) s).
Proof.
  unfold follows, await. cbn [undisturbed env_disconnect].
  destruct (env_disconnect env) as [s'|]; [destruct (Stage_eqb s s')|];
    cbn; rewrite ?orb_false_r, ?orb_true_r; auto.
  split; [reflexivity|]. split; [reflexivity|].
  destruct b; cbn; [apply hang_up_twice|reflexivity].
Qed.

Lemma follows_bind {A B} (m m0 : M A) (f f0 : A -> M B)
    (c : C) (b : bool) :
  follows c b m m0 ->
  (forall a c' b', follows c' b' (f a) (f0 a)) ->
  follows c b (bind m f) (bind m0 f0).
Proof.
  unfold follows, bind. intros (Hr & Ht & Hf) Hk.
  destruct (m (flagged b c)) as [[r1 c1] t1].
  destruct (m0 c) as [[r0 c0] t0].
  cbn [result final trace fst snd] in *. subst r1 t0 c1.
  destruct r0 as [e|a]; [auto|].
  destruct (Hk a c0 (b || signalled t1)) as (Kr & Kt & Kf).
  destruct (f a (flagged (b || signalled t1) c0)) as [[r2 c2] t2].
  destruct (f0 a c0) as [[r3 c3] t3].
  cbn [result final trace fst snd] in *. subst r2 t3 c2.
  rewrite hush_app, signalled_app, orb_assoc. auto.
Qed.

Lemma follows_try {A} (m m0 : M A) (h h0 : exn -> M A)
    (c : C) (b : bool) :
  follows c b m m0 ->
  (forall e c' b', follows c' b' (h e) (h0 e)) ->
  follows c b (try_except m h) (try_except m0 h0).
Proof.
  unfold follows, try_except. intros (Hr & Ht & Hf) Hk.
  destruct (m (flagged b c)) as [[r1 c1] t1].
  destruct (m0 c) as [[r0 c0] t0].
  cbn [result final trace fst snd] in *. subst r1 t0 c1.
  destruct r0 as [e|a]; [|auto].
  destruct (Hk e c0 (b || signalled t1)) as (Kr & Kt & Kf).
  destruct (h e (flagged (b || signalled t1) c0)) as [[r2 c2] t2].
  destruct (h0 e c0) as [[r3 c3] t3].
  cbn [result final trace fst snd] in *. subst r2 t3 c2.
  rewrite hush_app, signalled_app, orb_assoc. auto.
Qed.

(** What is read from the object is read from the flagged object. *)
Lemma follows_get {A} (f f0 : C -> M A) (c : C) (b : bool) :
  follows c b (f (flagged b c)) (f0 c) ->
  follows c b (bind get f) (bind get f0).
Proof.
  unfold follows, bind, get. intros (Hr & Ht & Hf).
  destruct (f (flagged b c) (flagged b c)) as [[r1 c1] t1].
  destruct (f0 c c) as [[r0 c0] t0].
  cbn [result final trace fst snd app] in *. auto.
Qed.

Lemma follows_invoke {A} (ev : Event) (r : exn + A) (c : C) (b : bool) :
  is_signal ev = false -> follows c b (invoke ev r) (invoke ev r).
Proof.
  intros Hev. unfold invoke. apply follows_bind.
  - apply follows_emit. exact Hev.
  - intros. apply follows_lift.
Qed.

Lemma follows_request {A} (env : TurnEnv) (s : Stage) (ev : Event)
    (r : TurnEnv -> exn + A) (c : C) (b : bool) :
  is_signal ev = false ->
  r (undisturbed env) = r env ->
  follows c b (request env s ev r) (request (undisturbed env) s ev r).
Proof.
  intros Hev Hr. unfold request. apply follows_bind.
  - apply follows_emit. exact Hev.
  - intros. apply follows_bind.
    + apply follows_await.
    + intros. rewrite Hr. apply follows_lift.
Qed.

Lemma follows_sleep (env : TurnEnv) (s : Stage) (d : Q) (c : C) (b : bool) :
  follows c b (sleep env s d) (sleep (undisturbed env) s d).
Proof.
  unfold sleep. apply follows_bind.
  - apply follows_emit. reflexivity.
  - intros. apply follows_await.
Qed.

End Undisturbed.

(** ** The stages of the agent *)

Ltac crunch :=
  repeat (cbv -[to_wav Agent.audio_duration Py.strip Py.contains Py.replace
                u Agent.ENDE Agent.apology];
          match goal with
          | |- context [match ?x with _ => _ end] => is_var x; destruct x
          end);
  cbv -[to_wav Agent.audio_duration Py.strip Py.contains Py.replace
        u Agent.ENDE Agent.apology].

Ltac split_all := repeat match goal with |- _ /\ _ => split end.

Lemma agent_hang_up_twice (c : Agent.AgentCall) :
  fst (onCallState PJSIP_INV_STATE_DISCONNECTED
         (fst (onCallState PJSIP_INV_STATE_DISCONNECTED c)))
  = fst (onCallState PJSIP_INV_STATE_DISCONNECTED c).
Proof. reflexivity. Qed.

Lemma listen_spec (env : TurnEnv) (d : Q) (c : Agent.AgentCall) :
  let x := Agent._listen_for_speech env d c in
  result x = inr (heard env c)
  /\ final x = after (trace x) c
  /\ requests (trace x) = []
  /\ (quiet env = true -> signalled (trace x) = false).
Proof.
  destruct env as [dc gd tr ch sp tf cp gm st ul hu se].
  destruct c as [pr rc pl hist act].
  unfold Agent._listen_for_speech, heard.
  crunch; split_all; try reflexivity; try discriminate.
Qed.

Lemma transcribe_spec (env : TurnEnv) (audio : bytes) (c : Agent.AgentCall) :
  let x := Agent._transcribe env audio c in
  result x = inr (transcribed env)
  /\ final x = after (trace x) c
  /\ requests (trace x) = [EvTranscription (u "speech.wav") audio]
  /\ (quiet env = true -> signalled (trace x) = false).
Proof.
  destruct env as [dc gd tr ch sp tf cp gm st ul hu se].
  destruct c as [pr rc pl hist act].
  unfold Agent._transcribe, transcribed.
  crunch; split_all; try reflexivity; try discriminate.
Qed.

Lemma generate_spec (env : TurnEnv) (c : Agent.AgentCall) :
  let x := Agent._generate_response env c in
  result x = inr (planned env)
  /\ final x = after (trace x) c
  /\ requests (trace x) = [chat_request c]
  /\ (quiet env = true -> signalled (trace x) = false).
Proof.
  destruct env as [dc gd tr ch sp tf cp gm st ul hu se].
  destruct c as [pr rc pl hist act].
  unfold Agent._generate_response, planned, chat_request.
  crunch; split_all; try reflexivity; try discriminate.
Qed.

Lemma speak_spec (env : TurnEnv) (text : pystr) (c : Agent.AgentCall) :
  let x := Agent._speak env text c in
  result x = inr tt
  /\ final x = after (trace x) c
  /\ requests (trace x) = [EvSpeech text]
  /\ (quiet env = true -> signalled (trace x) = false).
Proof.
  destruct env as [dc gd tr ch sp tf cp gm st ul hu se].
  destruct c as [pr rc pl hist act].
  unfold Agent._speak.
  crunch; split_all; try reflexivity; try discriminate.
  all: match goal with |- inr ?v = inr tt => destruct v; reflexivity end.
Qed.

Lemma active_after (t : list Event) (c : Agent.AgentCall) :
  Agent.is_active (after t c) = Agent.is_active c && negb (signalled t).
Proof.
  unfold after. destruct (signalled t); simpl.
  - rewrite andb_false_r. reflexivity.
  - rewrite andb_true_r. reflexivity.
Qed.

Lemma history_after (t : list Event) (c : Agent.AgentCall) :
  Agent.conversation_history (after t c) = Agent.conversation_history c.
Proof. unfold after. destruct (signalled t); reflexivity. Qed.

Lemma chat_request_after (t : list Event) (m : Message)
    (c : Agent.AgentCall) :
  chat_request (Agent.history_append m (after t c))
  = chat_request (Agent.history_append m c).
Proof. unfold after. destruct (signalled t); reflexivity. Qed.

Lemma append_after (t : list Event) (m : Message) (c : Agent.AgentCall) :
  Agent.history_append m (after t c) = after t (Agent.history_append m c).
Proof. unfold after. destruct (signalled t); reflexivity. Qed.

Lemma to_wav_cons (samples : bytes) :
  exists b r, to_wav samples = b :: r.
Proof. unfold to_wav, Wave.write. simpl. eauto. Qed.

Lemma heard_cons (env : TurnEnv) (c : Agent.AgentCall) (a : bytes) :
  heard env c = Some a -> exists b r, a = b :: r.
Proof.
  unfold heard. destruct (Agent.recorder c); [|discriminate].
  destruct (env_getData env) as [|[|b s]]; try discriminate.
  intros [= <-]. apply to_wav_cons.
Qed.

Ltac step L :=
  let S := fresh "S" in
  pose proof L as S; cbv zeta in S;
  match type of S with
  | result ?m = _ /\ _ =>
      let r := fresh "r" in
      let c' := fresh "c" in
      let t := fresh "t" in
      let R := fresh "R" in
      let Q := fresh "Q" in
      destruct m as [[r c'] t];
      cbn [result final trace fst snd] in S;
      destruct S as (-> & -> & R & Q)
  end; cbn iota beta.

Ltac settle :=
  unfold ret, modify; cbn [result final trace fst snd];
  rewrite ?app_nil_r, ?app_nil_l;
  rewrite ?append_after, ?(after_app agent_hang_up_twice);
  rewrite ?requests_app, ?signalled_app.

Lemma silent_turn (env : TurnEnv) (c : Agent.AgentCall) :
  heard env c = None ->
  let x := Agent.loop_body env c in
  result x = inr Next
  /\ final x = after (trace x) c
  /\ requests (trace x) = [EvSpeech Agent.no_audio_prompt]
  /\ (quiet env = true -> signalled (trace x) = false).
Proof.
  intros Hh. unfold Agent.loop_body, try_except, Agent.turn, bind.
  step (listen_spec env 10 c). rewrite Hh.
  step (speak_spec env Agent.no_audio_prompt (after t c)).
  settle. split_all; try reflexivity.
  - rewrite R, R0. reflexivity.
  - intros q. rewrite (Q q), (Q0 q). reflexivity.
Qed.

Lemma wordless_turn (env : TurnEnv) (c : Agent.AgentCall) (a : bytes) :
  heard env c = Some a ->
  Py.truthy_opt (transcribed env) = false ->
  let x := Agent.loop_body env c in
  result x = inr Next
  /\ final x = after (trace x) c
  /\ requests (trace x)
     = [EvTranscription (u "speech.wav") a; EvSpeech Agent.no_text_prompt]
  /\ (quiet env = true -> signalled (trace x) = false).
Proof.
  intros Hh Ht. destruct (heard_cons _ _ Hh) as (b & s & ->).
  unfold Agent.loop_body, try_except, Agent.turn, bind.
  step (listen_spec env 10 c). rewrite Hh.
  step (transcribe_spec env (b :: s) (after t c)).
  destruct (transcribed env) as [[|ch w]|]; try discriminate.
  all: step (speak_spec env Agent.no_text_prompt (after t0 (after t c))).
  all: settle; split_all; try reflexivity.
  all: try (rewrite R, R0, R1; reflexivity).
  all: intros q; rewrite (Q q), (Q0 q), (Q1 q); reflexivity.
Qed.

Lemma after_signalled {C} `{PjCall C} (t t' : list Event) (c : C) :
  signalled t = signalled t' -> after t c = after t' c.
Proof. unfold after. intros ->. reflexivity. Qed.

Ltac sig_norm :=
  rewrite ?signalled_app;
  change (signalled [EvHangup]) with false;
  rewrite ?orb_false_r, ?orb_false_l, ?orb_assoc.

Lemma full_turn (env : TurnEnv) (c : Agent.AgentCall) (a : bytes)
    (w : pystr) :
  heard env c = Some a ->
  transcribed env = Some w ->
  Py.truthy w = true ->
  let x := Agent.loop_body env c in
  let c3 := Agent.history_append (user_says w) c in
  let resp := fst (planned env) in
  let ends := snd (planned env) in
  result x = inr (if ends
                  then match env_hangup env with
                       | inr _ => Break
                       | inl _ => Next
                       end
                  else Next)
  /\ final x = after (trace x) (Agent.history_append (agent_says resp) c3)
  /\ requests (trace x)
     = [EvTranscription (u "speech.wav") a; chat_request c3; EvSpeech resp]
         ++ (if ends then [EvHangup] else [])
  /\ (quiet env = true -> signalled (trace x) = false).
Proof.
  intros Hh Ht Hw. destruct (heard_cons _ _ Hh) as (b & s & ->).
  destruct w as [|ch w]; [discriminate|].
  unfold Agent.loop_body, try_except, Agent.turn, bind, modify.
  step (listen_spec env 10 c). rewrite Hh.
  step (transcribe_spec env (b :: s) (after t c)). rewrite Ht.
  fold (user_says (ch :: w)).
  step (generate_spec env
          (Agent.history_append (user_says (ch :: w)) (after t0 (after t c)))).
  destruct (planned env) as [resp ends]. cbn [fst snd].
  fold (agent_says resp).
  match goal with
  | |- context [Agent._speak env resp ?c'] => step (speak_spec env resp c')
  end.
  rewrite (after_app agent_hang_up_twice), chat_request_after in R1.
  destruct ends.
  - match goal with
    | |- context [sleep env EndPause 1 ?c'] =>
        destruct (sleep_spec env EndPause 1 c') as (t3 & E3 & R3 & Q3)
    end.
    rewrite E3. cbn iota beta.
    unfold invoke, bind, emit, lift. cbn iota beta.
    destruct (env_hangup env) as [e|[]].
    + match goal with
      | |- context [sleep env ErrorPause 1 ?c'] =>
          destruct (sleep_spec env ErrorPause 1 c') as (t4 & E4 & R4 & Q4)
      end.
      rewrite E4. cbn iota beta.
      settle. split_all; try reflexivity.
      * apply after_signalled. sig_norm. reflexivity.
      * rewrite R, R0, R1, R2, R3, R4. reflexivity.
      * intros q. sig_norm.
        rewrite (Q q), (Q0 q), (Q1 q), (Q2 q), (Q3 q), (Q4 q). reflexivity.
    + settle. split_all; try reflexivity.
      * apply after_signalled. sig_norm. reflexivity.
      * rewrite R, R0, R1, R2, R3. reflexivity.
      * intros q. sig_norm.
        rewrite (Q q), (Q0 q), (Q1 q), (Q2 q), (Q3 q). reflexivity.
  - settle. split_all; try reflexivity.
    + rewrite R, R0, R1, R2. reflexivity.
    + intros q. rewrite (Q q), (Q0 q), (Q1 q), (Q2 q). reflexivity.
Qed.

(** Every turn of the agent ends normally, and the flag is cleared exactly
    when the remote party hung up during the turn. *)
Lemma agent_body_total (env : TurnEnv) (c : Agent.AgentCall) :
  let x := Agent.loop_body env c in
  (exists ctl, result x = inr ctl)
  /\ Agent.is_active (final x)
     = Agent.is_active c && negb (signalled (trace x))
  /\ (quiet env = true -> signalled (trace x) = false).
Proof.
  cbv zeta.
  destruct (heard env c) as [a|] eqn:Hh.
  - destruct (Py.truthy_opt (transcribed env)) eqn:Ht.
    + destruct (transcribed env) as [w|] eqn:Hw; [|discriminate].
      destruct (full_turn env c Hh Hw Ht) as (Hr & Hf & _ & Hq).
      rewrite Hf, active_after. split_all; eauto.
    + destruct (wordless_turn env c Hh Ht) as (Hr & Hf & _ & Hq).
      rewrite Hf, active_after. split_all; eauto.
  - destruct (silent_turn env c Hh) as (Hr & Hf & _ & Hq).
    rewrite Hf, active_after. split_all; eauto.
Qed.

(** ** The stages of the transcription handler *)

Lemma monitor_hang_up_twice (c : Transcription.TranscriptionCall) :
  fst (onCallState PJSIP_INV_STATE_DISCONNECTED
         (fst (onCallState PJSIP_INV_STATE_DISCONNECTED c)))
  = fst (onCallState PJSIP_INV_STATE_DISCONNECTED c).
Proof. reflexivity. Qed.

Lemma recording_after (t : list Event)
    (c : Transcription.TranscriptionCall) :
  Transcription.is_recording (after t c)
  = Transcription.is_recording c && negb (signalled t).
Proof.
  unfold after. destruct (signalled t); simpl.
  - rewrite andb_false_r. reflexivity.
  - rewrite andb_true_r. reflexivity.
Qed.

Lemma sender_after (t : list Event) (c : Transcription.TranscriptionCall) :
  Transcription.ws_sender (after t c) = Transcription.ws_sender c.
Proof. unfold after. destruct (signalled t); reflexivity. Qed.

Lemma chunk_cons (env : TurnEnv) (c : Transcription.TranscriptionCall)
    (a : bytes) :
  chunk env c = Some a -> exists b r, a = b :: r.
Proof.
  unfold chunk. destruct (Transcription.recorder c); [|discriminate].
  destruct (env_getData env) as [|[|b s]]; try discriminate.
  intros [= <-]. apply to_wav_cons.
Qed.

Lemma get_audio_chunk_spec (env : TurnEnv) (d : Q)
    (c : Transcription.TranscriptionCall) :
  let x := Transcription._get_audio_chunk env d c in
  result x = inr (chunk env c)
  /\ final x = after (trace x) c
  /\ requests (trace x) = []
  /\ (quiet env = true -> signalled (trace x) = false).
Proof.
  destruct env as [dc gd tr ch sp tf cp gm st ul hu se].
  destruct c as [ws rc rec].
  unfold Transcription._get_audio_chunk, chunk.
  crunch; split_all; try reflexivity; try discriminate.
Qed.

Lemma transcribe_audio_spec (env : TurnEnv) (audio : bytes)
    (c : Transcription.TranscriptionCall) :
  let x := Transcription._transcribe_audio env audio c in
  result x = inr (transcribed env)
  /\ final x = after (trace x) c
  /\ requests (trace x) = [EvTranscription (u "audio.wav") audio]
  /\ (quiet env = true -> signalled (trace x) = false).
Proof.
  destruct env as [dc gd tr ch sp tf cp gm st ul hu se].
  destruct c as [ws rc rec].
  unfold Transcription._transcribe_audio, transcribed.
  crunch; split_all; try reflexivity; try discriminate.
Qed.

Ltac settle_monitor :=
  unfold ret; cbn [result final trace fst snd];
  rewrite ?app_nil_r, ?app_nil_l;
  rewrite ?(after_app monitor_hang_up_twice);
  rewrite ?requests_app, ?signalled_app.

Lemma monitor_silent_turn (env : TurnEnv)
    (c : Transcription.TranscriptionCall) :
  chunk env c = None ->
  let x := Transcription.loop_body env c in
  result x = inr Next
  /\ final x = after (trace x) c
  /\ requests (trace x) = []
  /\ (quiet env = true -> signalled (trace x) = false).
Proof.
  intros Hh.
  unfold Transcription.loop_body, try_except, Transcription.turn, bind.
  step (get_audio_chunk_spec env Transcription.chunk_duration c).
  rewrite Hh.
  match goal with
  | |- context [sleep env IdlePause ?d ?c'] =>
      destruct (sleep_spec env IdlePause d c') as (t1 & E1 & R1 & Q1)
  end.
  rewrite E1. cbn iota beta.
  settle_monitor. split_all; try reflexivity.
  - rewrite R, R1. reflexivity.
  - intros q. rewrite (Q q), (Q1 q). reflexivity.
Qed.

Lemma monitor_wordless_turn (env : TurnEnv)
    (c : Transcription.TranscriptionCall) (a : bytes) :
  chunk env c = Some a ->
  Py.truthy_opt (transcribed env) = false ->
  let x := Transcription.loop_body env c in
  result x = inr Next
  /\ final x = after (trace x) c
  /\ requests (trace x) = [EvTranscription (u "audio.wav") a]
  /\ (quiet env = true -> signalled (trace x) = false).
Proof.
  intros Hh Ht. destruct (chunk_cons _ _ Hh) as (b & s & ->).
  unfold Transcription.loop_body, try_except, Transcription.turn, bind.
  step (get_audio_chunk_spec env Transcription.chunk_duration c).
  rewrite Hh.
  step (transcribe_audio_spec env (b :: s) (after t c)).
  destruct (transcribed env) as [[|ch w]|]; try discriminate.
  all: settle_monitor; split_all; try reflexivity.
  all: try (rewrite R, R0; reflexivity).
  all: intros q; rewrite (Q q), (Q0 q); reflexivity.
Qed.

Lemma monitor_push_turn (env : TurnEnv)
    (c : Transcription.TranscriptionCall) (a : bytes) (w : pystr) :
  chunk env c = Some a ->
  transcribed env = Some w ->
  Py.truthy w = true ->
  let x := Transcription.loop_body env c in
  result x = inr Next
  /\ final x = after (trace x) c
  /\ requests (trace x)
     = EvTranscription (u "audio.wav") a
         :: match Transcription.ws_sender c with
            | Some _ => [EvSendTranscript [w]]
            | None => []
            end
  /\ (quiet env = true -> signalled (trace x) = false).
Proof.
  intros Hh Ht Hw. destruct (chunk_cons _ _ Hh) as (b & s & ->).
  destruct w as [|ch w]; [discriminate|].
  unfold Transcription.loop_body, try_except, Transcription.turn, bind.
  step (get_audio_chunk_spec env Transcription.chunk_duration c).
  rewrite Hh.
  step (transcribe_audio_spec env (b :: s) (after t c)). rewrite Ht.
  unfold Transcription.send_transcript, bind, get. cbn iota beta.
  rewrite !sender_after.
  destruct (Transcription.ws_sender c) as [snd|].
  - match goal with
    | |- context [request env Push ?ev ?r ?c'] =>
        destruct (request_spec env Push ev r c' eq_refl)
          as (t1 & E1 & R1 & Q1)
    end.
    rewrite E1. cbn iota beta.
    destruct (env_send_transcript env) as [e|[]].
    + match goal with
      | |- context [sleep env ErrorPause 1 ?c'] =>
          destruct (sleep_spec env ErrorPause 1 c') as (t2 & E2 & R2 & Q2)
      end.
      rewrite E2. cbn iota beta.
      settle_monitor. split_all; try reflexivity.
      * apply after_signalled. sig_norm. reflexivity.
      * rewrite R, R0, R1, R2. reflexivity.
      * intros q. sig_norm. rewrite (Q q), (Q0 q), (Q1 q), (Q2 q).
        reflexivity.
    + settle_monitor. split_all; try reflexivity.
      * rewrite R, R0, R1. reflexivity.
      * intros q. rewrite (Q q), (Q0 q), (Q1 q). reflexivity.
  - unfold raise. cbn iota beta.
    match goal with
    | |- context [sleep env ErrorPause 1 ?c'] =>
        destruct (sleep_spec env ErrorPause 1 c') as (t2 & E2 & R2 & Q2)
    end.
    rewrite E2. cbn iota beta.
    settle_monitor. split_all; try reflexivity.
    + apply after_signalled. sig_norm. reflexivity.
    + rewrite R, R0, R2. reflexivity.
    + intros q. sig_norm. rewrite (Q q), (Q0 q), (Q2 q). reflexivity.
Qed.

Lemma monitor_body_total (env : TurnEnv)
    (c : Transcription.TranscriptionCall) :
  let x := Transcription.loop_body env c in
  result x = inr Next
  /\ Transcription.is_recording (final x)
     = Transcription.is_recording c && negb (signalled (trace x))
  /\ (quiet env = true -> signalled (trace x) = false).
Proof.
  cbv zeta.
  destruct (chunk env c) as [a|] eqn:Hh.
  - destruct (Py.truthy_opt (transcribed env)) eqn:Ht.
    + destruct (transcribed env) as [w|] eqn:Hw; [|discriminate].
      destruct (monitor_push_turn env c Hh Hw Ht) as (Hr & Hf & _ & Hq).
      rewrite Hf, recording_after. split_all; auto.
    + destruct (monitor_wordless_turn env c Hh Ht) as (Hr & Hf & _ & Hq).
      rewrite Hf, recording_after. split_all; auto.
  - destruct (monitor_silent_turn env c Hh) as (Hr & Hf & _ & Hq).
    rewrite Hf, recording_after. split_all; auto.
Qed.

(** ** The loops *)

Lemma agent_loop_inactive (script : list TurnEnv) (c : Agent.AgentCall) :
  Agent.is_active c = false ->
  Agent._conversation_loop script c = (Returned, c, []).
Proof. intros Hc. destruct script; simpl; rewrite Hc; reflexivity. Qed.

Lemma monitor_loop_inactive (script : list TurnEnv)
    (c : Transcription.TranscriptionCall) :
  Transcription.is_recording c = false ->
  Transcription._transcription_loop script c = (Returned, c, []).
Proof. intros Hc. destruct script; simpl; rewrite Hc; reflexivity. Qed.



(** A run of turns that all end with [Next], leave the object as it was
    and make the requests [f] says. *)
Lemma agent_loop_steady (f : TurnEnv -> list Event) (c : Agent.AgentCall)
    (script : list TurnEnv) :
  Agent.is_active c = true ->
  (forall env, In env script ->
     let x := Agent.loop_body env c in
     result x = inr Next /\ final x = c /\ requests (trace x) = f env) ->
  exists t, Agent._conversation_loop script c = (Running, c, t)
            /\ requests t = flat_map f script.
Proof.
  intros Hc. induction script as [|env rest IH]; intros Hs; simpl; rewrite Hc.
  - exists []. auto.
  - destruct (Hs env (or_introl eq_refl)) as (Hr & Hf & Hq).
    destruct (Agent.loop_body env c) as [[r c1] t1].
    cbn [result final trace fst snd] in Hr, Hf, Hq. subst r c1.
    destruct IH as (t2 & E & R2).
    { intros e He. apply Hs. right. exact He. }
    rewrite E. exists (t1 ++ t2). split; [reflexivity|].
    rewrite requests_app, Hq, R2. reflexivity.
Qed.

Lemma monitor_loop_steady (f : TurnEnv -> list Event)
    (c : Transcription.TranscriptionCall) (script : list TurnEnv) :
  Transcription.is_recording c = true ->
  (forall env, In env script ->
     let x := Transcription.loop_body env c in
     result x = inr Next /\ final x = c /\ requests (trace x) = f env) ->
  exists t, Transcription._transcription_loop script c = (Running, c, t)
            /\ requests t = flat_map f script.
Proof.
  intros Hc. induction script as [|env rest IH]; intros Hs; simpl; rewrite Hc.
  - exists []. auto.
  - destruct (Hs env (or_introl eq_refl)) as (Hr & Hf & Hq).
    destruct (Transcription.loop_body env c) as [[r c1] t1].
    cbn [result final trace fst snd] in Hr, Hf, Hq. subst r c1.
    destruct IH as (t2 & E & R2).
    { intros e He. apply Hs. right. exact He. }
    rewrite E. exists (t1 ++ t2). split; [reflexivity|].
    rewrite requests_app, Hq, R2. reflexivity.
Qed.

Lemma flat_map_const {A B} (x : B) (l : list A) :
  flat_map (fun _ => [x]) l = repeat x (List.length l).
Proof. induction l as [|a l IH]; simpl; [|rewrite IH]; reflexivity. Qed.

Lemma no_audio_heard (env : TurnEnv) (c : Agent.AgentCall) :
  no_audio env = true -> heard env c = None.
Proof.
  unfold no_audio, hears, heard.
  destruct (Agent.recorder c), (env_getData env) as [|[|]];
    simpl; congruence.
Qed.

Lemma no_audio_chunk (env : TurnEnv) (c : Transcription.TranscriptionCall) :
  no_audio env = true -> chunk env c = None.
Proof.
  unfold no_audio, hears, chunk.
  destruct (Transcription.recorder c), (env_getData env) as [|[|]];
    simpl; congruence.
Qed.

Lemma hears_heard (env : TurnEnv) (c : Agent.AgentCall) :
  hears env = true -> Agent.recorder c <> None ->
  exists a, heard env c = Some a.
Proof.
  unfold hears, heard. intros Hh Hr.
  destruct (Agent.recorder c); [|congruence].
  destruct (env_getData env) as [|[|]]; try discriminate. eauto.
Qed.

Lemma hears_chunk (env : TurnEnv) (c : Transcription.TranscriptionCall) :
  hears env = true -> Transcription.recorder c <> None ->
  exists a, chunk env c = Some a.
Proof.
  unfold hears, chunk. intros Hh Hr.
  destruct (Transcription.recorder c); [|congruence].
  destruct (env_getData env) as [|[|]]; try discriminate. eauto.
Qed.

(** ** A hang-up during a turn of the agent *)

Lemma recorder_flagged (b : bool) (c : Agent.AgentCall) :
  Agent.recorder (flagged b c) = Agent.recorder c.
Proof. destruct b; reflexivity. Qed.

Lemma player_flagged (b : bool) (c : Agent.AgentCall) :
  Agent.player (flagged b c) = Agent.player c.
Proof. destruct b; reflexivity. Qed.

Lemma prompt_flagged (b : bool) (c : Agent.AgentCall) :
  Agent.system_prompt (flagged b c) = Agent.system_prompt c.
Proof. destruct b; reflexivity. Qed.

Lemma history_flagged (b : bool) (c : Agent.AgentCall) :
  Agent.conversation_history (flagged b c) = Agent.conversation_history c.
Proof. destruct b; reflexivity. Qed.

Lemma append_flagged (m : Message) (b : bool) (c : Agent.AgentCall) :
  Agent.history_append m (flagged b c) = flagged b (Agent.history_append m c).
Proof. destruct b; reflexivity. Qed.

Ltac follow :=
  repeat first
    [ apply follows_ret
    | apply follows_raise
    | apply follows_lift
    | apply follows_emit; reflexivity
    | apply (follows_sleep agent_hang_up_twice)
    | apply follows_invoke; reflexivity
    | apply (follows_request agent_hang_up_twice); reflexivity
    | apply follows_modify; intros ? ?; apply append_flagged
    | apply follows_try; [|intros ? ? ?]
    | apply follows_get;
      rewrite ?recorder_flagged, ?player_flagged, ?prompt_flagged,
        ?history_flagged
    | apply follows_bind; [|intros ? ? ?]
    | match goal with
      | |- follows _ _ (match ?x with _ => _ end) _ => destruct x
      end ].

Lemma listen_follows (env : TurnEnv) (d : Q) (c : Agent.AgentCall)
    (b : bool) :
  follows c b (Agent._listen_for_speech env d)
    (Agent._listen_for_speech (undisturbed env) d).
Proof.
  unfold Agent._listen_for_speech. cbn [undisturbed env_getData]. follow.
Qed.

Lemma transcribe_follows (env : TurnEnv) (audio : bytes)
    (c : Agent.AgentCall) (b : bool) :
  follows c b (Agent._transcribe env audio)
    (Agent._transcribe (undisturbed env) audio).
Proof. unfold Agent._transcribe. follow. Qed.

Lemma generate_follows (env : TurnEnv) (c : Agent.AgentCall) (b : bool) :
  follows c b (Agent._generate_response env)
    (Agent._generate_response (undisturbed env)).
Proof. unfold Agent._generate_response. follow. Qed.

Lemma speak_follows (env : TurnEnv) (text : pystr) (c : Agent.AgentCall)
    (b : bool) :
  follows c b (Agent._speak env text) (Agent._speak (undisturbed env) text).
Proof.
  unfold Agent._speak.
  cbn [undisturbed env_tempfile env_createPlayer env_getAudioMedia
         env_startTransmit env_unlink].
  follow.
Qed.

(** A hang-up during a turn changes nothing in the turn but the flag:
    the turn ends as it would have, after the same events in the same
    order, with the same history. *)
Lemma body_follows (env : TurnEnv) (c : Agent.AgentCall) (b : bool) :
  follows c b (Agent.loop_body env) (Agent.loop_body (undisturbed env)).
Proof.
  unfold Agent.loop_body, Agent.turn. cbn [undisturbed env_hangup].
  repeat first
    [ apply listen_follows | apply transcribe_follows
    | apply generate_follows | apply speak_follows
    | progress follow ].
Qed.

(** ** Where the faults of a turn end *)


(** A chat service that raises is answered by the apology and the end of
    the call. *)
Lemma generation_fault_ends_the_call (env : TurnEnv) (c : Agent.AgentCall)
    (a : bytes) (w : pystr) :
  heard env c = Some a ->
  transcribed env = Some w ->
  Py.truthy w = true ->
  chat_fails env = true ->
  let x := Agent.loop_body env c in
  result x = inr (match env_hangup env with
                  | inr _ => Break
                  | inl _ => Next
                  end)
  /\ requests (trace x)
     = [EvTranscription (u "speech.wav") a;
        chat_request (Agent.history_append (user_says w) c);
        EvSpeech Agent.apology; EvHangup].
Proof.
  intros Hh Ht Hw Hf.
  destruct (full_turn env c Hh Ht Hw) as (Hr & _ & Hq & _).
  assert (Hp : planned env = (Agent.apology, true)).
  { unfold planned. unfold chat_fails in Hf.
    destruct (env_chat env); [reflexivity|discriminate]. }
  rewrite Hp in Hr, Hq. auto.
Qed.





Unset Implicit Arguments.

(** * The claims *)

(** ** C1: the end signal and the stage boundaries *)

(** C1, as the claim states it, fails: the remote party hangs up while
    the agent captures, and the turn still transcribes, asks the chat
    service, synthesizes and plays the reply before the loop returns. *)
Lemma C1_signal_during_capture_turn_goes_on :
  let env := with_disconnect Capture (calm pcm (u "Hi") (u "Ja")) in
  let x := Agent._conversation_loop [env] agent0 in
  stops_at_boundary (trace x) = false
  /\ requests (trace x)
     = [EvTranscription (u "speech.wav") (to_wav pcm);
        chat_request (Agent.history_append (user_says (u "Hi")) agent0);
        EvSpeech (u "Ja")]
  /\ List.length (Agent.conversation_history (final x)) = 2%nat.
Proof. vm_compute. repeat split. Qed.

(** C1, amended: the flag is read at the head of the loop only.  When the
    remote party hangs up during a turn, at whichever await, the turn goes
    on as if nobody had hung up: it ends the same way, after the same
    events in the same order (capture, transcription, chat, synthesis,
    playback, as far as the turn would have gone), with the same history;
    only the flag is cleared.  The loop then returns before it starts
    another turn: its trace is the trace of that one turn.  A loop that
    finds the flag cleared at its head returns at once with no event. *)
Theorem C1_loop_returns_after_the_signalled_turn
    (env : TurnEnv) (rest : list TurnEnv) (c : Agent.AgentCall) :
  Agent.is_active c = true ->
  signalled (trace (Agent.loop_body env c)) = true ->
  let x := Agent.loop_body env c in
  let x0 := Agent.loop_body (undisturbed env) c in
  result x = result x0
  /\ hush (trace x) = trace x0
  /\ final x = Agent.set_is_active false (final x0)
  /\ Agent._conversation_loop (env :: rest) c = (Returned, final x, trace x)
  /\ Agent.is_active (final x) = false
  /\ (forall script c',
        Agent.is_active c' = false ->
        Agent._conversation_loop script c' = (Returned, c', [])).
Proof.
  intros Hc Hs. cbv zeta.
  destruct (body_follows env c false) as (Hr & Ht & Hf).
  change (flagged false c) with c in Hr, Ht, Hf.
  rewrite Hs in Hf. cbn [orb] in Hf.
  split; [exact Hr|]. split; [exact Ht|]. split; [exact Hf|].
  clear Hr Ht Hf.
  destruct (agent_body_total env c) as ((ctl & Hres) & Ha & _).
  rewrite Hs, Hc in Ha. split; [|split; [exact Ha|]].
  - simpl. rewrite Hc.
    destruct (Agent.loop_body env c) as [[r c1] t1].
    cbn [result final trace fst snd] in *. subst r.
    destruct ctl; [|reflexivity].
    rewrite (agent_loop_inactive rest c1 Ha), app_nil_r. reflexivity.
  - intros script c' Hc'. apply agent_loop_inactive. exact Hc'.
Qed.

Lemma C1_loop_returns_after_the_signalled_turn_witness :
  let env := with_disconnect Synthesize (calm pcm (u "Hi") (u "Ja")) in
  let x := Agent.loop_body env agent0 in
  let x0 := Agent.loop_body (undisturbed env) agent0 in
  result x = result x0
  /\ hush (trace x) = trace x0
  /\ final x = Agent.set_is_active false (final x0)
  /\ Agent._conversation_loop [env; env] agent0
     = (Returned, final x, trace x)
  /\ Agent.is_active (final x) = false
  /\ (forall script c',
        Agent.is_active c' = false ->
        Agent._conversation_loop script c' = (Returned, c', [])).
Proof.
  apply (C1_loop_returns_after_the_signalled_turn
           (with_disconnect Synthesize (calm pcm (u "Hi") (u "Ja")))
           [with_disconnect Synthesize (calm pcm (u "Hi") (u "Ja"))]
           agent0).
  - reflexivity.
  - vm_compute. reflexivity.
Defined.

(** ** C2: no exception leaves a loop *)





(** ** C4: the fallback of the planner *)

(** C4: when the chat service raises, [_generate_response] returns the
    fixed apology and [True], whatever the call and the other answers are,
    after exactly one chat request: the failed request is not repeated. *)
Theorem C4_generation_failure_gives_the_apology
    (env : TurnEnv) (c : Agent.AgentCall) :
  chat_fails env = true ->
  let x := Agent._generate_response env c in
  result x = inr (Agent.apology, true)
  /\ chats (trace x)
     = [{| role := u "system"; content := Agent.system_prompt c |}
          :: Agent.conversation_history c].
Proof.
  intros Hf. cbv zeta.
  destruct (generate_spec env c) as (Hr & _ & Hq & _).
  rewrite Hr, <- chats_requests, Hq. split; [|reflexivity].
  unfold planned. unfold chat_fails in Hf.
  destruct (env_chat env); [reflexivity|discriminate].
Qed.

Lemma C4_generation_failure_gives_the_apology_witness :
  let env := with_chat (inl (ServiceError 503)) (calm pcm (u "Hi") []) in
  let x := Agent._generate_response env agent0 in
  result x = inr (Agent.apology, true)
  /\ chats (trace x)
     = [{| role := u "system"; content := Agent.system_prompt agent0 |}
          :: Agent.conversation_history agent0].
Proof.
  apply (C4_generation_failure_gives_the_apology
           (with_chat (inl (ServiceError 503)) (calm pcm (u "Hi") []))
           agent0).
  reflexivity.
Defined.

(** ** C6 and C7: silence *)

Lemma silent_turn_steady (env : TurnEnv) (c : Agent.AgentCall) :
  quiet env = true -> no_audio env = true ->
  let x := Agent.loop_body env c in
  result x = inr Next /\ final x = c
  /\ requests (trace x) = [EvSpeech Agent.no_audio_prompt].
Proof.
  intros Hq Hn.
  destruct (silent_turn env c (no_audio_heard env c Hn)) as (Hr & Hf & Hs & Hg).
  cbv zeta. rewrite Hf, (after_quiet _ _ (Hg Hq)). auto.
Qed.

Lemma monitor_silent_turn_steady (env : TurnEnv)
    (c : Transcription.TranscriptionCall) :
  quiet env = true -> no_audio env = true ->
  let x := Transcription.loop_body env c in
  result x = inr Next /\ final x = c /\ requests (trace x) = [].
Proof.
  intros Hq Hn.
  destruct (monitor_silent_turn env c (no_audio_chunk env c Hn))
    as (Hr & Hf & Hs & Hg).
  cbv zeta. rewrite Hf, (after_quiet _ _ (Hg Hq)). auto.
Qed.

Lemma silent_script (script : list TurnEnv) (env : TurnEnv) :
  forallb (fun e => quiet e && no_audio e) script = true ->
  In env script -> quiet env = true /\ no_audio env = true.
Proof.
  intros Hs He. rewrite forallb_forall in Hs.
  apply andb_prop. apply Hs. exact He.
Qed.

Lemma speeches_repeat (p : pystr) (n : nat) :
  speeches (repeat (EvSpeech p) n) = repeat p n.
Proof. induction n as [|n IH]; simpl; [|rewrite IH]; reflexivity. Qed.

Lemma hangups_repeat_speech (p : pystr) (n : nat) :
  hangups (repeat (EvSpeech p) n) = 0%nat.
Proof. induction n as [|n IH]; [reflexivity|exact IH]. Qed.

(** C6, as the claim states it, fails: two empty captures in a row give
    two re-prompts, not one. *)
Lemma C6_two_empty_captures_two_reprompts :
  let env := calm [] [] [] in
  speeches (trace (Agent._conversation_loop [env; env] agent0))
  = [Agent.no_audio_prompt; Agent.no_audio_prompt].
Proof. vm_compute. reflexivity. Qed.

(** C6, amended: the agent keeps no count of empty captures and has no
    threshold; every empty capture is answered by one re-prompt, so a run
    of [n] empty captures asks the speech service for the re-prompt [n]
    times, and for nothing else. *)
Theorem C6_every_empty_capture_is_reprompted
    (script : list TurnEnv) (c : Agent.AgentCall) :
  Agent.is_active c = true ->
  forallb (fun e => quiet e && no_audio e) script = true ->
  speeches (trace (Agent._conversation_loop script c))
  = repeat Agent.no_audio_prompt (List.length script).
Proof.
  intros Hc Hs.
  destruct (@agent_loop_steady (fun _ => [EvSpeech Agent.no_audio_prompt])
              c script Hc) as (t & E & R).
  { intros env He. destruct (silent_script script env Hs He) as (Hq & Hn).
    apply silent_turn_steady; assumption. }
  rewrite E. cbn [trace snd].
  rewrite <- speeches_requests, R, flat_map_const. apply speeches_repeat.
Qed.

Lemma C6_every_empty_capture_is_reprompted_witness :
  speeches (trace (Agent._conversation_loop
                     [calm [] [] []; calm [] [] []; calm [] [] []] agent0))
  = repeat Agent.no_audio_prompt 3.
Proof.
  apply (C6_every_empty_capture_is_reprompted
           [calm [] [] []; calm [] [] []; calm [] [] []] agent0);
    reflexivity.
Defined.

(** C7: while the captures stay empty and nobody hangs up, both loops go
    on looping over any number of turns, with the call object unchanged
    and without a single [hangup]. *)
Theorem C7_silence_never_closes_the_call (script : list TurnEnv) :
  forallb (fun e => quiet e && no_audio e) script = true ->
  (forall c, Agent.is_active c = true ->
     exists t, Agent._conversation_loop script c = (Running, c, t)
               /\ hangups t = 0%nat)
  /\ (forall c, Transcription.is_recording c = true ->
        exists t, Transcription._transcription_loop script c
                  = (Running, c, t)
                  /\ hangups t = 0%nat).
Proof.
  intros Hs. split; intros c Hc.
  - destruct (@agent_loop_steady (fun _ => [EvSpeech Agent.no_audio_prompt])
                c script Hc) as (t & E & R).
    { intros env He. destruct (silent_script script env Hs He) as (Hq & Hn).
      apply silent_turn_steady; assumption. }
    exists t. split; [exact E|].
    rewrite <- hangups_requests, R, flat_map_const.
    apply hangups_repeat_speech.
  - destruct (@monitor_loop_steady (fun _ => []) c script Hc)
      as (t & E & R).
    { intros env He. destruct (silent_script script env Hs He) as (Hq & Hn).
      apply monitor_silent_turn_steady; assumption. }
    exists t. split; [exact E|].
    rewrite <- hangups_requests, R.
    clear. induction script as [|e l IH]; [reflexivity|exact IH].
Qed.

Lemma C7_silence_never_closes_the_call_witness :
  let script := [calm [] [] []; with_getData (inl (ServiceError 1))
                                   (calm [] [] []); calm [] [] []] in
  (forall c, Agent.is_active c = true ->
     exists t, Agent._conversation_loop script c = (Running, c, t)
               /\ hangups t = 0%nat)
  /\ (forall c, Transcription.is_recording c = true ->
        exists t, Transcription._transcription_loop script c
                  = (Running, c, t)
                  /\ hangups t = 0%nat).
Proof.
  apply (C7_silence_never_closes_the_call
           [calm [] [] []; with_getData (inl (ServiceError 1))
                             (calm [] [] []); calm [] [] []]).
  reflexivity.
Defined.

(** ** C5: failed transcriptions *)

Lemma transcriptions_app (t1 t2 : list Event) :
  transcriptions (t1 ++ t2) = transcriptions t1 ++ transcriptions t2.
Proof. apply flat_map_app. Qed.

Lemma hangups_app (t1 t2 : list Event) :
  hangups (t1 ++ t2) = (hangups t1 + hangups t2)%nat.
Proof. unfold hangups. rewrite filter_app, length_app. reflexivity. Qed.

Lemma failed_turn_steady (env : TurnEnv) (c : Agent.AgentCall) :
  Agent.recorder c <> None ->
  quiet env = true -> hears env = true -> stt_fails env = true ->
  let x := Agent.loop_body env c in
  result x = inr Next /\ final x = c
  /\ requests (trace x) = failed_turn_requests c env
  /\ exists a, failed_turn_requests c env
               = [EvTranscription (u "speech.wav") a;
                  EvSpeech Agent.no_text_prompt].
Proof.
  intros Hrec Hq Hh Hf.
  destruct (hears_heard env c Hh Hrec) as (a & Ha).
  assert (Ht : Py.truthy_opt (transcribed env) = false).
  { unfold transcribed. unfold stt_fails in Hf.
    destruct (env_transcription env); [reflexivity|discriminate]. }
  destruct (wordless_turn env c Ha Ht) as (Hr & Hfin & Hs & Hg).
  cbv zeta. rewrite Hfin, (after_quiet _ _ (Hg Hq)).
  unfold failed_turn_requests. rewrite Ha. eauto.
Qed.

Lemma failed_script (script : list TurnEnv) (env : TurnEnv) :
  forallb (fun e => quiet e && hears e && stt_fails e) script = true ->
  In env script ->
  quiet env = true /\ hears env = true /\ stt_fails env = true.
Proof.
  intros Hs He. rewrite forallb_forall in Hs.
  specialize (Hs env He).
  apply andb_prop in Hs. destruct Hs as (Hs & ?).
  apply andb_prop in Hs. tauto.
Qed.

(** C5, as the claim states it, fails: after two failed transcriptions in
    a row the loop has neither returned nor hung up, and it serves the
    next turn as usual. *)
Lemma C5_two_failures_do_not_close :
  let env := with_transcription (inl (ServiceError 500))
               (calm pcm [] []) in
  let x := Agent._conversation_loop [env; env] agent0 in
  let y := Agent._conversation_loop [env; env; calm pcm (u "Hi") (u "Ja")]
             agent0 in
  x = (Running, agent0, trace x)
  /\ hangups (trace x) = 0%nat
  /\ speeches (trace y)
     = [Agent.no_text_prompt; Agent.no_text_prompt; u "Ja"].
Proof. vm_compute. repeat split. Qed.

(** C5, amended: the agent has no retry budget.  A transcription that
    raises is asked for once and not again: the turn speaks the fixed
    "Entschuldigung" utterance and the loop goes back to capture.
    However many turns in a row fail so, the loop goes on looping, with
    one transcription request per turn and no [hangup]. *)
Theorem C5_failed_transcription_is_not_retried
    (script : list TurnEnv) (c : Agent.AgentCall) :
  Agent.is_active c = true ->
  Agent.recorder c <> None ->
  forallb (fun e => quiet e && hears e && stt_fails e) script = true ->
  exists t,
    Agent._conversation_loop script c = (Running, c, t)
    /\ List.length (transcriptions t) = List.length script
    /\ speeches t = repeat Agent.no_text_prompt (List.length script)
    /\ hangups t = 0%nat.
Proof.
  intros Hc Hrec Hs.
  destruct (@agent_loop_steady (failed_turn_requests c) c script Hc)
    as (t & E & R).
  { intros env He.
    destruct (failed_script script env Hs He) as (Hq & Hh & Hf).
    destruct (failed_turn_steady env c Hrec Hq Hh Hf) as (? & ? & ? & _).
    auto. }
  exists t. split; [exact E|].
  rewrite <- transcriptions_requests, <- speeches_requests,
    <- hangups_requests, R.
  clear E R t. induction script as [|env rest IH]; [auto|].
  simpl in Hs. apply andb_prop in Hs. destruct Hs as (He & Hs).
  destruct (IH Hs) as (I1 & I2 & I3).
  apply andb_prop in He. destruct He as (He & Hf).
  apply andb_prop in He. destruct He as (Hq & Hh).
  destruct (failed_turn_steady env c Hrec Hq Hh Hf) as (_ & _ & _ & a & Ha).
  cbn [flat_map]. rewrite Ha.
  rewrite transcriptions_app, speeches_app, hangups_app, length_app.
  rewrite I1, I2, I3. repeat split.
Qed.

Lemma C5_failed_transcription_is_not_retried_witness :
  let env := with_transcription (inl (ServiceError 500))
               (calm pcm [] []) in
  exists t,
    Agent._conversation_loop [env; env; env] agent0 = (Running, agent0, t)
    /\ List.length (transcriptions t) = 3%nat
    /\ speeches t = repeat Agent.no_text_prompt 3
    /\ hangups t = 0%nat.
Proof.
  apply (C5_failed_transcription_is_not_retried
           [with_transcription (inl (ServiceError 500)) (calm pcm [] []);
            with_transcription (inl (ServiceError 500)) (calm pcm [] []);
            with_transcription (inl (ServiceError 500)) (calm pcm [] [])]
           agent0).
  - reflexivity.
  - discriminate.
  - reflexivity.
Defined.

(** ** C8: the end of playback *)

(** C8 fails on the code: [_speak] starts the player and then sleeps for
    [len(text) * 0.1] seconds, a tenth of a second per character of the
    text up to the rounding of floats.  Whatever audio the speech service
    returns for "Hallo", long or short, the wait is half a second, and no
    event of the player is awaited. *)
Theorem C8_wait_is_a_tenth_of_a_second_per_character (audio : bytes) :
  trace (Agent._speak (with_speech (inr audio) (calm pcm [] []))
           (u "Hallo") agent0)
  = [EvSpeech (u "Hallo"); EvTempFile audio;
     EvCreatePlayer (u "/tmp/tmpa1.mp3"); EvGetAudioMedia (-1);
     EvStartTransmit; EvSleep (1 # 2); EvUnlink (u "/tmp/tmpa1.mp3")].
Proof. vm_compute. reflexivity. Qed.

(** ** C9: the push to the sink *)

(** C9, as the claim states it, fails: the push of "Hallo" carries the
    text and nothing else; no call handle and no timestamp go with it. *)
Lemma C9_push_carries_the_text_alone :
  let x := Transcription._transcription_loop [calm pcm (u "Hallo") []]
             monitor0 in
  pushes (trace x) = [[u "Hallo"]]
  /\ ~ (exists handle timestamp,
          pushes (trace x) = [[handle; u "Hallo"; timestamp]]).
Proof.
  split; [reflexivity|].
  intros (handle & timestamp & H). vm_compute in H. discriminate H.
Qed.

(** C9, amended: when a window is captured, its transcription stripped of
    white space is a non-empty text such as "Hallo" and a sender is
    attached, the turn calls [send_transcript] exactly once, with that
    text as its only argument, and ends normally even if the call raises;
    if nobody hangs up meanwhile the loop goes on with the next
    capture. *)
Theorem C9_transcript_is_pushed_once
    (env : TurnEnv) (rest : list TurnEnv)
    (c : Transcription.TranscriptionCall) (text : pystr) :
  Transcription.is_recording c = true ->
  Transcription.recorder c <> None ->
  Transcription.ws_sender c <> None ->
  hears env = true ->
  env_transcription env = inr text ->
  Py.truthy (Py.strip text) = true ->
  let x := Transcription.loop_body env c in
  result x = inr Next
  /\ pushes (trace x) = [[Py.strip text]]
  /\ (quiet env = true ->
      Transcription._transcription_loop (env :: rest) c
      = (fst (fst (Transcription._transcription_loop rest c)),
         final (Transcription._transcription_loop rest c),
         trace x ++ trace (Transcription._transcription_loop rest c))).
Proof.
  intros Hc Hrec Hws Hh Ht Hw.
  destruct (hears_chunk env c Hh Hrec) as (a & Ha).
  assert (Htr : transcribed env = Some (Py.strip text)).
  { unfold transcribed. rewrite Ht. reflexivity. }
  destruct (monitor_push_turn env c Ha Htr Hw) as (Hr & Hf & Hs & Hg).
  cbv zeta. split; [exact Hr|]. split.
  - rewrite <- pushes_requests, Hs.
    destruct (Transcription.ws_sender c); [reflexivity|congruence].
  - intros Hq. simpl. rewrite Hc.
    rewrite (after_quiet _ _ (Hg Hq)) in Hf.
    destruct (Transcription.loop_body env c) as [[r c1] t1].
    cbn [result final trace fst snd] in *. subst r c1.
    destruct (Transcription._transcription_loop rest c) as [[r2 c2] t2].
    reflexivity.
Qed.

Lemma C9_transcript_is_pushed_once_witness :
  let env := calm pcm (u " Hallo ") [] in
  let x := Transcription.loop_body env monitor0 in
  result x = inr Next
  /\ pushes (trace x) = [[Py.strip (u " Hallo ")]]
  /\ (quiet env = true ->
      Transcription._transcription_loop [env; env] monitor0
      = (fst (fst (Transcription._transcription_loop [env] monitor0)),
         final (Transcription._transcription_loop [env] monitor0),
         trace x ++ trace (Transcription._transcription_loop [env]
                             monitor0))).
Proof.
  apply (C9_transcript_is_pushed_once
           (calm pcm (u " Hallo ") []) [calm pcm (u " Hallo ") []]
           monitor0 (u " Hallo ")).
  - reflexivity.
  - discriminate.
  - discriminate.
  - reflexivity.
  - reflexivity.
  - reflexivity.
Defined.

(** ** C10: a transcription that is empty once stripped *)

(** C10, as the claim states it, fails: the transcription is blank and
    the speech service raises.  The fixed utterance is asked for, but
    nothing is played. *)
Lemma C10_blank_transcription_without_synthesis_plays_nothing :
  let env := with_speech (inl (ServiceError 500))
               (calm pcm [32; 10]%N (u "Ja")) in
  let x := Agent.loop_body env agent0 in
  trace x
  = [EvSleep 10; EvGetData; EvTranscription (u "speech.wav") (to_wav pcm);
     EvSpeech Agent.no_text_prompt]
  /\ playbacks (trace x) = 0%nat.
Proof. vm_compute. split; reflexivity. Qed.

(** The whole turn when the transcription is blank and the utterance can
    be played. *)
Lemma blank_turn_trace (env : TurnEnv) (c : Agent.AgentCall)
    (samples : bytes) (text : pystr) (audio : bytes) (path : pystr) :
  Agent.recorder c <> None ->
  Agent.player c <> None ->
  env_getData env = inr samples ->
  samples <> [] ->
  env_transcription env = inr text ->
  Py.strip text = [] ->
  env_speech env = inr audio ->
  env_tempfile env = inr path ->
  playback_starts env = true ->
  hush (trace (Agent.loop_body env c))
  = [EvSleep 10; EvGetData;
     EvTranscription (u "speech.wav") (to_wav samples);
     EvSpeech Agent.no_text_prompt; EvTempFile audio;
     EvCreatePlayer path; EvGetAudioMedia (-1); EvStartTransmit;
     EvSleep (Agent.audio_duration Agent.no_text_prompt); EvUnlink path].
Proof.
  destruct env as [dc gd tr ch sp tf cp gm st ul hu se].
  destruct c as [pr rc pl hist act].
  unfold playback_starts.
  cbn [Agent.recorder Agent.player env_getData env_transcription
         env_speech env_tempfile env_createPlayer env_getAudioMedia
         env_startTransmit].
  intros Hrec Hpl -> Hn -> Hs -> -> Hp.
  destruct rc as [rc|]; [|congruence].
  destruct pl as [pl|]; [|congruence].
  destruct samples as [|b s]; [congruence|].
  destruct cp as [?|[]]; [discriminate|].
  destruct gm as [?|[]]; [discriminate|].
  destruct st as [?|[]]; [discriminate|].
  destruct (to_wav_cons (b :: s)) as (b0 & r0 & Hwav).
  unfold Agent.loop_body, Agent.turn, Agent._listen_for_speech,
    Agent._transcribe, Agent._speak.
  destruct dc as [[]|];
    cbv -[to_wav Py.strip u Agent.audio_duration Agent.no_text_prompt];
    rewrite Hwav;
    cbv -[to_wav Py.strip u Agent.audio_duration Agent.no_text_prompt];
    rewrite Hs;
    cbv -[to_wav Py.strip u Agent.audio_duration Agent.no_text_prompt];
    destruct ul; reflexivity.
Qed.

(** Without a synthesized audio or without a player the turn plays
    nothing. *)
Lemma blank_turn_plays_nothing (env : TurnEnv) (c : Agent.AgentCall)
    (samples : bytes) (text : pystr) :
  Agent.recorder c <> None ->
  env_getData env = inr samples ->
  samples <> [] ->
  env_transcription env = inr text ->
  Py.strip text = [] ->
  (exists e, env_speech env = inl e) \/ Agent.player c = None ->
  playbacks (trace (Agent.loop_body env c)) = 0%nat.
Proof.
  destruct env as [dc gd tr ch sp tf cp gm st ul hu se].
  destruct c as [pr rc pl hist act].
  cbn [Agent.recorder Agent.player env_getData env_transcription
         env_speech].
  intros Hrec -> Hn -> Hs Hno.
  destruct rc as [rc|]; [|congruence].
  destruct samples as [|b s]; [congruence|].
  destruct (to_wav_cons (b :: s)) as (b0 & r0 & Hwav).
  unfold Agent.loop_body, Agent.turn, Agent._listen_for_speech,
    Agent._transcribe, Agent._speak.
  destruct Hno as [(e & ->)| ->];
    [|destruct sp as [?|?], tf as [?|?], ul as [?|[]]];
    destruct dc as [[]|];
    cbv -[to_wav Py.strip u Agent.audio_duration Agent.no_text_prompt];
    rewrite Hwav;
    cbv -[to_wav Py.strip u Agent.audio_duration Agent.no_text_prompt];
    rewrite Hs;
    cbv -[to_wav Py.strip u Agent.audio_duration Agent.no_text_prompt];
    reflexivity.
Qed.

(** C10, amended: when a window is captured and the text of the
    transcription is empty after [strip], the agent's turn makes one
    speech request, for the fixed "Entschuldigung, ich habe Sie nicht
    verstanden.", asks the chat service for nothing, leaves the history as
    it was and goes on to the next turn; the transcription handler pushes
    nothing.  The utterance is played when it can be: if the speech
    service answers, the temporary file is written, a player is attached
    and can be started, the turn is capture, transcription, the speech
    request, then the playback of the audio returned (player on the file,
    transmission, the wait, removal of the file), in this order and with
    nothing else; if the speech service raises or there is no player,
    nothing is played. *)
Theorem C10_blank_transcription_is_no_speech
    (env : TurnEnv) (c : Agent.AgentCall)
    (m : Transcription.TranscriptionCall) (text : pystr) :
  Agent.recorder c <> None ->
  hears env = true ->
  env_transcription env = inr text ->
  Py.strip text = [] ->
  let x := Agent.loop_body env c in
  let y := Transcription.loop_body env m in
  result x = inr Next
  /\ speeches (trace x) = [Agent.no_text_prompt]
  /\ chats (trace x) = []
  /\ Agent.conversation_history (final x) = Agent.conversation_history c
  /\ result y = inr Next
  /\ pushes (trace y) = []
  /\ (forall samples audio path,
        env_getData env = inr samples ->
        Agent.player c <> None ->
        env_speech env = inr audio ->
        env_tempfile env = inr path ->
        playback_starts env = true ->
        hush (trace x)
        = [EvSleep 10; EvGetData;
           EvTranscription (u "speech.wav") (to_wav samples);
           EvSpeech Agent.no_text_prompt; EvTempFile audio;
           EvCreatePlayer path; EvGetAudioMedia (-1); EvStartTransmit;
           EvSleep (Agent.audio_duration Agent.no_text_prompt);
           EvUnlink path])
  /\ ((exists e, env_speech env = inl e) \/ Agent.player c = None ->
      playbacks (trace x) = 0%nat).
Proof.
  intros Hrec Hh Ht Hs.
  destruct (hears_heard env c Hh Hrec) as (a & Ha).
  assert (Htr : Py.truthy_opt (transcribed env) = false).
  { unfold transcribed. rewrite Ht, Hs. reflexivity. }
  destruct (wordless_turn env c Ha Htr) as (Hr & Hf & Hq & _).
  cbv zeta. split; [exact Hr|].
  rewrite <- speeches_requests, <- chats_requests, Hq, Hf, history_after.
  split; [reflexivity|]. split; [reflexivity|]. split; [reflexivity|].
  destruct (monitor_body_total env m) as (Hy & _). split; [exact Hy|].
  split; [|split].
  - rewrite <- pushes_requests.
    destruct (chunk env m) as [b|] eqn:Hb.
    + destruct (monitor_wordless_turn env m Hb Htr) as (_ & _ & Hm & _).
      rewrite Hm. reflexivity.
    + destruct (monitor_silent_turn env m Hb) as (_ & _ & Hm & _).
      rewrite Hm. reflexivity.
  - intros samples audio path Hg Hpl Hsp Htf Hp.
    assert (Hn : samples <> []).
    { unfold hears in Hh. rewrite Hg in Hh. destruct samples;
        [discriminate|discriminate]. }
    exact (blank_turn_trace env c samples text audio path
             Hrec Hpl Hg Hn Ht Hs Hsp Htf Hp).
  - intros Hno.
    destruct (env_getData env) as [e|samples] eqn:Hg;
      [unfold hears in Hh; rewrite Hg in Hh; discriminate|].
    assert (Hn : samples <> []).
    { unfold hears in Hh. rewrite Hg in Hh.
      destruct samples; [discriminate|discriminate]. }
    exact (blank_turn_plays_nothing env c samples text
             Hrec Hg Hn Ht Hs Hno).
Qed.
(** C10 at an input: a transcription of a blank and a line feed, on a
    call with a recorder and a player. *)
Lemma C10_blank_transcription_is_no_speech_witness :
  let env := calm pcm [32; 10]%N (u "Ja") in
  let x := Agent.loop_body env agent0 in
  let y := Transcription.loop_body env monitor0 in
  result x = inr Next
  /\ speeches (trace x) = [Agent.no_text_prompt]
  /\ chats (trace x) = []
  /\ Agent.conversation_history (final x)
     = Agent.conversation_history agent0
  /\ result y = inr Next
  /\ pushes (trace y) = []
  /\ hush (trace x)
     = [EvSleep 10; EvGetData;
        EvTranscription (u "speech.wav") (to_wav pcm);
        EvSpeech Agent.no_text_prompt; EvTempFile [x49; x44; x33];
        EvCreatePlayer (u "/tmp/tmpa1.mp3"); EvGetAudioMedia (-1);
        EvStartTransmit;
        EvSleep (Agent.audio_duration Agent.no_text_prompt);
        EvUnlink (u "/tmp/tmpa1.mp3")].
Proof.
  destruct (C10_blank_transcription_is_no_speech
              (calm pcm [32; 10]%N (u "Ja")) agent0 monitor0 [32; 10]%N)
    as (H1 & H2 & H3 & H4 & H5 & H6 & H7 & _).
  - discriminate.
  - reflexivity.
  - reflexivity.
  - reflexivity.
  - split; [exact H1|]. split; [exact H2|]. split; [exact H3|].
    split; [exact H4|]. split; [exact H5|]. split; [exact H6|].
    apply (H7 pcm [x49; x44; x33] (u "/tmp/tmpa1.mp3")).
    + reflexivity.
    + discriminate.
    + reflexivity.
    + reflexivity.
    + reflexivity.
Defined.

(** ** C3: the marker *)

Lemma startswith_app (p suf : pystr) : Py.startswith p (p ++ suf) = true.
Proof.
  induction p as [|a p IH]; [reflexivity|].
  simpl. rewrite N.eqb_refl. exact IH.
Qed.

Lemma startswith_split (p s : pystr) :
  Py.startswith p s = true -> exists suf, s = p ++ suf.
Proof.
  revert s. induction p as [|a p IH]; intros s H.
  - exists s. reflexivity.
  - destruct s as [|b s]; [discriminate|].
    simpl in H. apply andb_prop in H. destruct H as (Hab & H).
    apply N.eqb_eq in Hab. subst b.
    destruct (IH s H) as (suf & ->). exists suf. reflexivity.
Qed.

Lemma contains_here (p s : pystr) :
  Py.startswith p s = true -> Py.contains p s = true.
Proof. intros H. destruct s; simpl; rewrite H; reflexivity. Qed.

Lemma contains_app (pre p suf : pystr) :
  Py.contains p (pre ++ p ++ suf) = true.
Proof.
  induction pre as [|c pre IH].
  - change ([] ++ p ++ suf) with (p ++ suf).
    apply contains_here, startswith_app.
  - simpl. rewrite IH. apply orb_true_r.
Qed.

Lemma contains_split (p s : pystr) :
  Py.contains p s = true -> exists pre suf, s = pre ++ p ++ suf.
Proof.
  induction s as [|c s IH]; simpl; intros H.
  - rewrite orb_false_r in H.
    destruct (startswith_split p [] H) as (suf & E). exists [], suf. exact E.
  - apply orb_prop in H. destruct H as [H|H].
    + destruct (startswith_split p (c :: s) H) as (suf & E).
      exists [], suf. exact E.
    + destruct (IH H) as (pre & suf & ->). exists (c :: pre), suf.
      reflexivity.
Qed.

Lemma lstrip_keeps (pre rest : pystr) (a : N) :
  Py.isspace a = false ->
  exists pre', Py.lstrip (pre ++ a :: rest) = pre' ++ a :: rest.
Proof.
  intros Ha. induction pre as [|c pre IH].
  - exists []. simpl. rewrite Ha. reflexivity.
  - simpl. destruct (Py.isspace c).
    + exact IH.
    + exists (c :: pre). reflexivity.
Qed.

Lemma rstrip_keeps (x y : pystr) (z : N) :
  Py.isspace z = false ->
  Py.rstrip (x ++ z :: y) = x ++ z :: Py.rstrip y.
Proof.
  intros Hz. induction x as [|c x IH].
  - simpl. rewrite Hz. destruct (Py.rstrip y); reflexivity.
  - simpl. rewrite IH. destruct x; reflexivity.
Qed.

(** [strip] removes no occurrence of the marker. *)
Lemma strip_keeps_marker (text : pystr) :
  Py.contains Agent.ENDE text = true ->
  Py.contains Agent.ENDE (Py.strip text) = true.
Proof.
  intros H. destruct (contains_split _ _ H) as (pre & suf & ->).
  change Agent.ENDE with ([91; 69; 78; 68; 69] ++ [93])%N.
  unfold Py.strip. rewrite <- !app_assoc. simpl.
  destruct (lstrip_keeps pre (69 :: 78 :: 68 :: 69 :: 93 :: suf)%N 91%N
              eq_refl) as (pre' & ->).
  change (pre' ++ 91 :: 69 :: 78 :: 68 :: 69 :: 93 :: suf)%N
    with (pre' ++ [91; 69; 78; 68; 69] ++ 93 :: suf)%N.
  rewrite app_assoc, rstrip_keeps by reflexivity.
  rewrite <- app_assoc.
  apply (contains_app pre' [91; 69; 78; 68; 69; 93]%N (Py.rstrip suf)).
Qed.

(** Whenever the reply of the chat service contains the marker, the
    planner asks for the end of the call. *)
Lemma marker_ends_the_call (env : TurnEnv) (c : Agent.AgentCall)
    (text : pystr) (more : list (option pystr)) :
  env_chat env = inr (Some text :: more) ->
  Py.contains Agent.ENDE text = true ->
  exists spoken,
    result (Agent._generate_response env c) = inr (spoken, true).
Proof.
  intros He Hm. destruct (generate_spec env c) as (Hr & _).
  rewrite Hr. unfold planned. rewrite He, (strip_keeps_marker text Hm).
  eauto.
Qed.

(** C3 fails on the code: [replace] makes one pass from the left, so a
    marker written around another one is put together by the removal of
    the inner one.  The planner returns [True] and a text that still
    contains the marker, and the loop hands that text to the speech
    service. *)
Theorem C3_nested_marker_is_spoken :
  let env := calm pcm (u "Danke") (u "Auf Wiedersehen. [EN[ENDE]DE]") in
  result (Agent._generate_response env agent0)
  = inr (u "Auf Wiedersehen. [ENDE]", true)
  /\ Py.contains Agent.ENDE (u "Auf Wiedersehen. [ENDE]") = true
  /\ speeches (trace (Agent._conversation_loop [env] agent0))
     = [u "Auf Wiedersehen. [ENDE]"].
Proof. vm_compute. repeat split. Qed.

(** * Further properties of the handlers *)

(** ** The turns of the agent *)

Lemma chats_app (t1 t2 : list Event) :
  chats (t1 ++ t2) = chats t1 ++ chats t2.
Proof. apply flat_map_app. Qed.

(** X1: whatever the collaborators answer, a turn of the agent hands
    exactly one utterance to the speech service. *)
Theorem X1_every_turn_speaks_once (env : TurnEnv) (c : Agent.AgentCall) :
  exists text, speeches (trace (Agent.loop_body env c)) = [text].
Proof.
  rewrite <- speeches_requests.
  destruct (heard env c) as [a|] eqn:Hh.
  - destruct (Py.truthy_opt (transcribed env)) eqn:Ht.
    + destruct (transcribed env) as [w|] eqn:Hw; [|discriminate].
      destruct (full_turn env c Hh Hw Ht) as (_ & _ & Hq & _).
      rewrite Hq. exists (fst (planned env)).
      destruct (snd (planned env)); reflexivity.
    + destruct (wordless_turn env c Hh Ht) as (_ & _ & Hq & _).
      rewrite Hq. eexists. reflexivity.
  - destruct (silent_turn env c Hh) as (_ & _ & Hq & _).
    rewrite Hq. eexists. reflexivity.
Qed.






(** X4: a turn hangs up at most once, and it leaves the loop exactly when
    it has hung up and the [hangup] did not raise. *)
Theorem X4_turn_breaks_iff_hangup_succeeds
    (env : TurnEnv) (c : Agent.AgentCall) :
  let x := Agent.loop_body env c in
  (hangups (trace x) <= 1)%nat
  /\ (result x = inr Break
      <-> hangups (trace x) = 1%nat /\ exists r, env_hangup env = inr r).
Proof.
  cbv zeta. rewrite <- hangups_requests.
  destruct (heard env c) as [a|] eqn:Hh.
  - destruct (Py.truthy_opt (transcribed env)) eqn:Ht.
    + destruct (transcribed env) as [w|] eqn:Hw; [|discriminate].
      destruct (full_turn env c Hh Hw Ht) as (Hr & _ & Hq & _).
      rewrite Hr, Hq. unfold chat_request.
      destruct (snd (planned env)); cbn.
      * split; [lia|]. destruct (env_hangup env) as [e|r]; split.
        -- discriminate.
        -- intros (_ & r & H). discriminate.
        -- eauto.
        -- reflexivity.
      * split; [lia|]. split; [discriminate|]. intros (H & _). discriminate.
    + destruct (wordless_turn env c Hh Ht) as (Hr & _ & Hq & _).
      rewrite Hr, Hq. cbn. split; [lia|].
      split; [discriminate|]. intros (H & _). discriminate.
  - destruct (silent_turn env c Hh) as (Hr & _ & Hq & _).
    rewrite Hr, Hq. cbn. split; [lia|].
    split; [discriminate|]. intros (H & _). discriminate.
Qed.

(** X5: when the chat service raises and the [hangup] that follows the
    apology raises too, the call is not ended: the turn speaks the
    apology, tries to hang up once, and, if the remote party has not hung
    up meanwhile, the loop goes on with the next turn. *)
Theorem X5_failed_hangup_keeps_the_loop
    (env : TurnEnv) (rest : list TurnEnv) (c : Agent.AgentCall)
    (text : pystr) (e : exn) :
  Agent.is_active c = true ->
  Agent.recorder c <> None ->
  hears env = true ->
  env_transcription env = inr text ->
  Py.truthy (Py.strip text) = true ->
  chat_fails env = true ->
  env_hangup env = inl e ->
  quiet env = true ->
  let x := Agent.loop_body env c in
  let y := Agent._conversation_loop rest (final x) in
  speeches (trace x) = [Agent.apology]
  /\ hangups (trace x) = 1%nat
  /\ Agent.is_active (final x) = true
  /\ Agent._conversation_loop (env :: rest) c
     = (fst (fst y), final y, trace x ++ trace y).
Proof.
  intros Hc Hrec Hh Ht Hw Hf He Hq.
  destruct (hears_heard env c Hh Hrec) as (a & Ha).
  assert (Htr : transcribed env = Some (Py.strip text)).
  { unfold transcribed. rewrite Ht. reflexivity. }
  destruct (generation_fault_ends_the_call env c Ha Htr Hw Hf) as (Hr & Hs).
  destruct (agent_body_total env c) as (_ & Hact & Hsig).
  rewrite He in Hr. rewrite (Hsig Hq), Hc in Hact.
  cbv zeta. rewrite <- speeches_requests, <- hangups_requests, Hs.
  split; [reflexivity|]. split; [reflexivity|]. split; [exact Hact|].
  simpl. rewrite Hc.
  destruct (Agent.loop_body env c) as [[r c1] t1].
  cbn [result final trace fst snd] in *. subst r.
  destruct (Agent._conversation_loop rest c1) as [[r2 c2] t2].
  reflexivity.
Qed.

Lemma X5_failed_hangup_keeps_the_loop_witness :
  let x := Agent.loop_body stubborn_stack agent0 in
  let y := Agent._conversation_loop [stubborn_stack] (final x) in
  speeches (trace x) = [Agent.apology]
  /\ hangups (trace x) = 1%nat
  /\ Agent.is_active (final x) = true
  /\ Agent._conversation_loop [stubborn_stack; stubborn_stack] agent0
     = (fst (fst y), final y, trace x ++ trace y).
Proof.
  apply (X5_failed_hangup_keeps_the_loop stubborn_stack [stubborn_stack]
           agent0 (u "Hallo") (ServiceError 70004));
    try reflexivity; discriminate.
Defined.

(** ** The planner *)

Lemma lstrip_suffix (s : pystr) : exists a, s = a ++ Py.lstrip s.
Proof.
  induction s as [|c s (a & IH)]; [exists []; reflexivity|].
  simpl. destruct (Py.isspace c).
  - exists (c :: a). simpl. rewrite <- IH. reflexivity.
  - exists []. reflexivity.
Qed.

Lemma rstrip_prefix (s : pystr) : exists b, s = Py.rstrip s ++ b.
Proof.
  induction s as [|c s (b & IH)]; [exists []; reflexivity|].
  simpl. destruct (Py.rstrip s) as [|d r] eqn:E.
  - destruct (Py.isspace c).
    + exists (c :: s). reflexivity.
    + exists b. simpl. rewrite IH at 1. reflexivity.
  - exists b. simpl. rewrite IH at 1. reflexivity.
Qed.

(** [strip] only removes characters from the two ends. *)
Lemma strip_infix (s : pystr) : exists a b, s = a ++ Py.strip s ++ b.
Proof.
  destruct (lstrip_suffix s) as (a & Ha).
  destruct (rstrip_prefix (Py.lstrip s)) as (b & Hb).
  exists a, b. unfold Py.strip. rewrite <- Hb. exact Ha.
Qed.

Lemma strip_marker (text : pystr) :
  Py.contains Agent.ENDE (Py.strip text) = Py.contains Agent.ENDE text.
Proof.
  destruct (Py.contains Agent.ENDE text) eqn:H.
  - apply strip_keeps_marker. exact H.
  - destruct (Py.contains Agent.ENDE (Py.strip text)) eqn:H'; [|reflexivity].
    destruct (contains_split _ _ H') as (pre & suf & E).
    destruct (strip_infix text) as (a & b & Ht).
    rewrite E in Ht.
    assert (Hc : Py.contains Agent.ENDE text = true).
    { rewrite Ht.
      replace (a ++ (pre ++ Agent.ENDE ++ suf) ++ b)
        with ((a ++ pre) ++ Agent.ENDE ++ (suf ++ b))
        by (rewrite <- !app_assoc; reflexivity).
      apply contains_app. }
    congruence.
Qed.

(** X6: the planner asks for the end of the call exactly when the reply
    of the chat service contains the marker. *)
Theorem X6_should_end_iff_marker
    (env : TurnEnv) (c : Agent.AgentCall) (text : pystr)
    (more : list (option pystr)) :
  env_chat env = inr (Some text :: more) ->
  exists spoken,
    result (Agent._generate_response env c)
    = inr (spoken, Py.contains Agent.ENDE text).
Proof.
  intros He. destruct (generate_spec env c) as (Hr & _).
  rewrite Hr. unfold planned. rewrite He, strip_marker. eauto.
Qed.

Lemma X6_should_end_iff_marker_witness :
  exists spoken,
    result (Agent._generate_response
              (calm pcm (u "Hi") (u "Gern geschehen.")) agent0)
    = inr (spoken, Py.contains Agent.ENDE (u "Gern geschehen.")).
Proof.
  apply (X6_should_end_iff_marker
           (calm pcm (u "Hi") (u "Gern geschehen.")) agent0
           (u "Gern geschehen.") []).
  reflexivity.
Defined.

Lemma replace_absent (old new s : pystr) :
  Py.contains old s = false -> Py.replace_from old new 0 s = s.
Proof.
  induction s as [|c s IH]; [reflexivity|].
  simpl. intros H. apply orb_false_elim in H. destruct H as (H1 & H2).
  rewrite H1, (IH H2). reflexivity.
Qed.

Lemma lstrip_head (s : pystr) (c : N) (r : pystr) :
  Py.lstrip s = c :: r -> Py.isspace c = false.
Proof.
  induction s as [|d s IH]; [discriminate|].
  simpl. destruct (Py.isspace d) eqn:E; [exact IH|].
  intros [= <- _]. exact E.
Qed.

Lemma rstrip_idem (s : pystr) : Py.rstrip (Py.rstrip s) = Py.rstrip s.
Proof.
  induction s as [|c s IH]; [reflexivity|].
  simpl. destruct (Py.rstrip s) as [|d r] eqn:E.
  - destruct (Py.isspace c) eqn:Hc; [reflexivity|].
    simpl. rewrite Hc. reflexivity.
  - change (Py.rstrip (c :: d :: r))
      with (match Py.rstrip (d :: r) with
            | [] => if Py.isspace c then [] else [c]
            | r' => c :: r'
            end).
    rewrite IH. reflexivity.
Qed.

Lemma strip_head (s : pystr) (c : N) (r : pystr) :
  Py.strip s = c :: r -> Py.isspace c = false.
Proof.
  unfold Py.strip. destruct (Py.lstrip s) as [|d l] eqn:E; [discriminate|].
  pose proof (lstrip_head s d l E) as Hd.
  pose proof (rstrip_keeps [] l d Hd) as Hk. simpl app in Hk.
  rewrite Hk. intros [= <- _]. exact Hd.
Qed.

Lemma lstrip_nonspace (c : N) (r : pystr) :
  Py.isspace c = false -> Py.lstrip (c :: r) = c :: r.
Proof. intros H. simpl. rewrite H. reflexivity. Qed.

Lemma strip_idem (s : pystr) : Py.strip (Py.strip s) = Py.strip s.
Proof.
  destruct (Py.strip s) as [|c r] eqn:E; [reflexivity|].
  pose proof (strip_head s c r E) as Hc.
  unfold Py.strip at 1. rewrite (lstrip_nonspace c r Hc), <- E.
  unfold Py.strip. apply rstrip_idem.
Qed.

(** X7: a reply without the marker is returned as it is, stripped of the
    white space at its ends, and the call goes on. *)
Theorem X7_reply_without_marker_is_kept
    (env : TurnEnv) (c : Agent.AgentCall) (text : pystr)
    (more : list (option pystr)) :
  env_chat env = inr (Some text :: more) ->
  Py.contains Agent.ENDE text = false ->
  result (Agent._generate_response env c) = inr (Py.strip text, false).
Proof.
  intros He Hm. destruct (generate_spec env c) as (Hr & _).
  rewrite Hr. unfold planned. rewrite He, strip_marker, Hm.
  assert (Hn : Py.contains Agent.ENDE (Py.strip text) = false)
    by (rewrite strip_marker; exact Hm).
  change (Py.replace Agent.ENDE [] (Py.strip text))
    with (Py.replace_from Agent.ENDE [] 0 (Py.strip text)).
  rewrite (replace_absent _ _ _ Hn), strip_idem. reflexivity.
Qed.

Lemma X7_reply_without_marker_is_kept_witness :
  result (Agent._generate_response
            (calm pcm (u "Hi") (u " Gern geschehen. ")) agent0)
  = inr (Py.strip (u " Gern geschehen. "), false).
Proof.
  apply (X7_reply_without_marker_is_kept
           (calm pcm (u "Hi") (u " Gern geschehen. ")) agent0
           (u " Gern geschehen. ") []); reflexivity.
Defined.

Lemma replace_trailing (body : pystr) :
  forallb (fun ch => negb (ch =? 91)%N) body = true ->
  Py.replace_from Agent.ENDE [] 0 (body ++ Agent.ENDE) = body.
Proof.
  change Agent.ENDE with [91; 69; 78; 68; 69; 93]%N.
  induction body as [|ch body IH]; [reflexivity|].
  intros H. simpl in H. apply andb_prop in H. destruct H as (Hc & Hb).
  apply negb_true_iff in Hc. rewrite N.eqb_sym in Hc.
  cbn [app Py.replace_from Py.startswith]. rewrite Hc. cbn [andb].
  rewrite (IH Hb). reflexivity.
Qed.

(** X8: when the reply, stripped, ends with the marker and has no opening
    bracket before it, the planner returns the text before the marker,
    stripped, and asks for the end of the call. *)
Theorem X8_trailing_marker_is_removed
    (env : TurnEnv) (c : Agent.AgentCall) (text body : pystr)
    (more : list (option pystr)) :
  env_chat env = inr (Some text :: more) ->
  Py.strip text = body ++ Agent.ENDE ->
  forallb (fun ch => negb (ch =? 91)%N) body = true ->
  result (Agent._generate_response env c) = inr (Py.strip body, true).
Proof.
  intros He Hs Hb. destruct (generate_spec env c) as (Hr & _).
  rewrite Hr. unfold planned. rewrite He, Hs.
  change (Py.replace Agent.ENDE [] (body ++ Agent.ENDE))
    with (Py.replace_from Agent.ENDE [] 0 (body ++ Agent.ENDE)).
  rewrite (replace_trailing body Hb).
  pose proof (contains_app body Agent.ENDE []) as Hc.
  rewrite app_nil_r in Hc. rewrite Hc. reflexivity.
Qed.

Lemma X8_trailing_marker_is_removed_witness :
  result (Agent._generate_response
            (calm pcm (u "Danke") (u " Auf Wiedersehen. [ENDE] ")) agent0)
  = inr (Py.strip (u "Auf Wiedersehen. "), true).
Proof.
  apply (X8_trailing_marker_is_removed
           (calm pcm (u "Danke") (u " Auf Wiedersehen. [ENDE] ")) agent0
           (u " Auf Wiedersehen. [ENDE] ") (u "Auf Wiedersehen. ") []);
    reflexivity.
Defined.

(** ** Speaking *)

(** X9: without a player, [_speak] still asks the speech service and
    writes the temporary file, but it plays nothing and waits for
    nothing, and it removes the file. *)
Theorem X9_without_player_nothing_is_played
    (env : TurnEnv) (text : pystr) (c : Agent.AgentCall)
    (audio : bytes) (path : pystr) :
  Agent.player c = None ->
  env_speech env = inr audio ->
  env_tempfile env = inr path ->
  let t := trace (Agent._speak env text c) in
  requests t = [EvSpeech text] /\ tempfiles t = [audio]
  /\ unlinks t = [path] /\ sleeps t = []
  /\ forallb (fun ev => match ev with
                        | EvCreatePlayer _ | EvStartTransmit => false
                        | _ => true
                        end) t = true.
Proof.
  destruct env as [dc gd tr ch sp tf cp gm st ul hu se].
  destruct c as [pr rc pl hist act].
  cbn [Agent.player env_speech env_tempfile].
  intros -> -> ->. unfold Agent._speak.
  crunch; split_all; reflexivity.
Qed.

Lemma X9_without_player_nothing_is_played_witness :
  let c := AgentCall__init__ (u "Du bist freundlich.") in
  let t := trace (Agent._speak (calm pcm [] []) (u "Hallo") c) in
  requests t = [EvSpeech (u "Hallo")] /\ tempfiles t = [[x49; x44; x33]]
  /\ unlinks t = [u "/tmp/tmpa1.mp3"] /\ sleeps t = []
  /\ forallb (fun ev => match ev with
                        | EvCreatePlayer _ | EvStartTransmit => false
                        | _ => true
                        end) t = true.
Proof.
  apply (X9_without_player_nothing_is_played
           (calm pcm [] []) (u "Hallo")
           (AgentCall__init__ (u "Du bist freundlich."))
           [x49; x44; x33] (u "/tmp/tmpa1.mp3")); reflexivity.
Defined.

(** X10: with a player, the temporary file is removed only if playback
    could be started.  When [createPlayer], [getAudioMedia] or
    [startTransmit] raises, [_speak] returns without removing the file it
    wrote, and without waiting; when they all answer, it waits
    [len(text) * 0.1] seconds, the product of the two as binary64 floats
    that [Agent.audio_duration] computes, and then removes the file. *)
Theorem X10_temporary_file_is_left_when_playback_fails
    (env : TurnEnv) (text : pystr) (c : Agent.AgentCall)
    (p : Player) (audio : bytes) (path : pystr) :
  Agent.player c = Some p ->
  env_speech env = inr audio ->
  env_tempfile env = inr path ->
  let x := Agent._speak env text c in
  result x = inr tt
  /\ tempfiles (trace x) = [audio]
  /\ unlinks (trace x) = (if playback_starts env then [path] else [])
  /\ sleeps (trace x)
     = (if playback_starts env then [Agent.audio_duration text] else []).
Proof.
  destruct env as [dc gd tr ch sp tf cp gm st ul hu se].
  destruct c as [pr rc pl hist act].
  cbn [Agent.player env_speech env_tempfile].
  intros -> -> ->. unfold Agent._speak, playback_starts.
  crunch; split_all; try reflexivity.
  all: match goal with |- inr ?v = inr tt => destruct v; reflexivity end.
Qed.

Lemma X10_temporary_file_is_left_when_playback_fails_witness :
  let x := Agent._speak broken_player (u "Ja") agent0 in
  result x = inr tt
  /\ tempfiles (trace x) = [[x49]]
  /\ unlinks (trace x)
     = (if playback_starts broken_player then [u "/tmp/a.mp3"] else [])
  /\ sleeps (trace x)
     = (if playback_starts broken_player
        then [Agent.audio_duration (u "Ja")] else []).
Proof.
  apply (X10_temporary_file_is_left_when_playback_fails
           broken_player (u "Ja") agent0 AudioMediaPlayer [x49]
           (u "/tmp/a.mp3")); reflexivity.
Defined.

(** X11: [_send_greeting] pauses for half a second and then asks the
    speech service for the fixed greeting, once; it never raises, and it
    does not read the flag: the greeting is asked for even if the remote
    party hangs up during the pause. *)
Theorem X11_greeting_is_spoken_once (env : TurnEnv) (c : Agent.AgentCall) :
  let x := Agent._send_greeting env c in
  result x = inr tt
  /\ requests (trace x) = [EvSpeech Agent.greeting]
  /\ exists t, trace x = EvSleep (1 # 2) :: t.
Proof.
  unfold Agent._send_greeting, bind.
  destruct (sleep_spec env GreetPause (1 # 2) c) as (t1 & E1 & R1 & _).
  pose proof E1 as E1'. unfold sleep, bind, emit in E1'.
  rewrite E1. cbn iota beta.
  step (speak_spec env Agent.greeting (after t1 c)).
  cbn [result final trace fst snd].
  split; [reflexivity|]. split.
  - rewrite requests_app, R1, R. reflexivity.
  - destruct (await env GreetPause c) as [[r0 c0] t0]. destruct r0.
    + injection E1' as _ _ <-. eexists. reflexivity.
    + injection E1' as _ _ <-. eexists. reflexivity.
Qed.

(** ** The transcription handler *)

(** The requests of one turn of the transcription handler. *)
Lemma monitor_turn_requests (env : TurnEnv)
    (c : Transcription.TranscriptionCall) :
  forallb (fun ev => match ev with
                     | EvTranscription _ _ | EvSendTranscript _ => true
                     | _ => false
                     end)
          (requests (trace (Transcription.loop_body env c))) = true.
Proof.
  destruct (chunk env c) as [a|] eqn:Hh.
  - destruct (Py.truthy_opt (transcribed env)) eqn:Ht.
    + destruct (transcribed env) as [w|] eqn:Hw; [|discriminate].
      destruct (monitor_push_turn env c Hh Hw Ht) as (_ & _ & Hq & _).
      rewrite Hq. destruct (Transcription.ws_sender c); reflexivity.
    + destruct (monitor_wordless_turn env c Hh Ht) as (_ & _ & Hq & _).
      rewrite Hq. reflexivity.
  - destruct (monitor_silent_turn env c Hh) as (_ & _ & Hq & _).
    rewrite Hq. reflexivity.
Qed.

Lemma passive_requests (l : list Event) :
  forallb (fun ev => match ev with
                     | EvTranscription _ _ | EvSendTranscript _ => true
                     | _ => false
                     end) l = true ->
  speeches l = [] /\ chats l = [] /\ hangups l = 0%nat.
Proof.
  induction l as [|ev l IH]; [auto|].
  simpl. intros H. apply andb_prop in H. destruct H as (He & Hl).
  destruct (IH Hl) as (I1 & I2 & I3).
  destruct ev; try discriminate; simpl; auto.
Qed.

(** X12: the transcription handler only listens.  Over any run of its
    loop it never asks the speech service or the chat service for
    anything, and it never hangs up. *)
Theorem X12_transcription_loop_only_listens (script : list TurnEnv) :
  forall c,
    let t := trace (Transcription._transcription_loop script c) in
    speeches t = [] /\ chats t = [] /\ hangups t = 0%nat.
Proof.
  induction script as [|env rest IH]; intros c; cbv zeta; simpl.
  - destruct (Transcription.is_recording c); auto.
  - destruct (Transcription.is_recording c); [|auto].
    pose proof (monitor_turn_requests env c) as Hq.
    apply passive_requests in Hq.
    rewrite speeches_requests, chats_requests, hangups_requests in Hq.
    destruct Hq as (Q1 & Q2 & Q3).
    destruct (monitor_body_total env c) as (Hr & _).
    destruct (Transcription.loop_body env c) as [[r c1] t1].
    cbn [result trace fst snd] in *. subst r.
    destruct (IH c1) as (I1 & I2 & I3).
    destruct (Transcription._transcription_loop rest c1) as [[r2 c2] t2].
    cbn [trace snd] in *.
    rewrite speeches_app, chats_app, hangups_app, Q1, Q2, Q3, I1, I2, I3.
    auto.
Qed.

(** X13: a call without a sender pushes nothing.  A non-empty transcript
    then makes the turn fail on the missing attribute; the failure is
    caught, the loop pauses for one second, the only pause of the turn,
    and goes on. *)
Theorem X13_missing_sender_is_survived
    (env : TurnEnv) (c : Transcription.TranscriptionCall) (text : pystr) :
  Transcription.ws_sender c = None ->
  Transcription.recorder c <> None ->
  hears env = true ->
  env_transcription env = inr text ->
  Py.truthy (Py.strip text) = true ->
  let x := Transcription.loop_body env c in
  result x = inr Next
  /\ pushes (trace x) = []
  /\ sleeps (trace x) = [1].
Proof.
  intros Hws Hrec Hh Ht Hw.
  destruct env as [dc gd tr ch sp tf cp gm st ul hu se].
  destruct c as [ws rc rec].
  cbn [Transcription.ws_sender Transcription.recorder env_transcription]
    in Hws, Hrec, Ht.
  subst ws tr. destruct rc as [rc|]; [|congruence].
  unfold hears in Hh. cbn [env_getData] in Hh.
  destruct gd as [e|[|b s]]; try discriminate.
  destruct (Py.strip text) as [|k w] eqn:Hs; [discriminate|].
  unfold Transcription.loop_body, Transcription.turn,
    Transcription._get_audio_chunk, Transcription._transcribe_audio,
    Transcription.send_transcript.
  destruct (to_wav_cons (b :: s)) as (b0 & r0 & Hwav).
  destruct dc as [[]|];
    cbv -[to_wav Py.strip u]; rewrite Hwav;
    cbv -[to_wav Py.strip u]; rewrite Hs; repeat split.
Qed.

Lemma X13_missing_sender_is_survived_witness :
  let c := set_monitor_recorder (TranscriptionCall__init__ None) in
  let x := Transcription.loop_body (calm pcm (u "Hallo") []) c in
  result x = inr Next
  /\ pushes (trace x) = []
  /\ sleeps (trace x) = [1].
Proof.
  apply (X13_missing_sender_is_survived
           (calm pcm (u "Hallo") [])
           (set_monitor_recorder (TranscriptionCall__init__ None))
           (u "Hallo")); try reflexivity; discriminate.
Defined.

(** ** The audio and the text that reach the services *)

Lemma to_wav_frame (samples : bytes) :
  List.length (to_wav samples) = (44 + List.length samples)%nat
  /\ skipn 44 (to_wav samples) = samples
  /\ firstn 4 (to_wav samples) = list_byte_of_string "RIFF"
  /\ firstn 8 (skipn 8 (to_wav samples)) = list_byte_of_string "WAVEfmt ".
Proof. unfold to_wav, Wave.write. repeat split. Qed.

(** X14: whatever either handler passes on as captured audio is a WAVE
    file around the samples of the recorder: the recorder answered with
    samples, at least one, and the audio is a 44 byte header that starts
    with RIFF and WAVEfmt, followed by exactly those samples. *)
Theorem X14_captured_audio_is_the_samples_in_a_wave_file
    (env : TurnEnv) (d : Q) (c : Agent.AgentCall)
    (m : Transcription.TranscriptionCall) (a : bytes) :
  result (Agent._listen_for_speech env d c) = inr (Some a)
  \/ result (Transcription._get_audio_chunk env d m) = inr (Some a) ->
  exists samples,
    env_getData env = inr samples
    /\ samples <> []
    /\ List.length a = (44 + List.length samples)%nat
    /\ skipn 44 a = samples
    /\ firstn 4 a = list_byte_of_string "RIFF"
    /\ firstn 8 (skipn 8 a) = list_byte_of_string "WAVEfmt ".
Proof.
  intros H.
  assert (Ha : exists b s, env_getData env = inr (b :: s)
                           /\ a = to_wav (b :: s)).
  { destruct H as [H|H].
    - destruct (listen_spec env d c) as (Hr & _). rewrite Hr in H.
      unfold heard in H. destruct (Agent.recorder c); [|discriminate].
      destruct (env_getData env) as [e|[|b s]]; try discriminate.
      injection H as <-. eauto.
    - destruct (get_audio_chunk_spec env d m) as (Hr & _). rewrite Hr in H.
      unfold chunk in H.
      destruct (Transcription.recorder m); [|discriminate].
      destruct (env_getData env) as [e|[|b s]]; try discriminate.
      injection H as <-. eauto. }
  destruct Ha as (b & s & Hg & ->).
  exists (b :: s). split; [exact Hg|]. split; [discriminate|].
  apply to_wav_frame.
Qed.

Lemma X14_captured_audio_is_the_samples_in_a_wave_file_witness :
  exists samples,
    env_getData (calm pcm [] []) = inr samples
    /\ samples <> []
    /\ List.length (to_wav pcm) = (44 + List.length samples)%nat
    /\ skipn 44 (to_wav pcm) = samples
    /\ firstn 4 (to_wav pcm) = list_byte_of_string "RIFF"
    /\ firstn 8 (skipn 8 (to_wav pcm)) = list_byte_of_string "WAVEfmt ".
Proof.
  apply (X14_captured_audio_is_the_samples_in_a_wave_file
           (calm pcm [] []) 10 agent0 monitor0 (to_wav pcm)).
  left. reflexivity.
Defined.

Lemma rstrip_last (s : pystr) (d : N) :
  Py.rstrip s <> [] -> Py.isspace (last (Py.rstrip s) d) = false.
Proof.
  induction s as [|c s IH]; [intros H; exfalso; apply H; reflexivity|].
  simpl. destruct (Py.rstrip s) as [|e r] eqn:E.
  - destruct (Py.isspace c) eqn:Hc; [intros H; exfalso; apply H; reflexivity|].
    intros _. exact Hc.
  - intros _. change (last (c :: e :: r) d) with (last (e :: r) d).
    apply IH. discriminate.
Qed.

(** X15: the text either handler gets back from its transcription is
    trimmed: it is empty, or it neither starts nor ends with white space.
    So is, therefore, what goes into the history and what is pushed. *)
Theorem X15_transcript_is_trimmed
    (env : TurnEnv) (audio : bytes) (c : Agent.AgentCall)
    (m : Transcription.TranscriptionCall) (w : pystr) :
  result (Agent._transcribe env audio c) = inr (Some w)
  \/ result (Transcription._transcribe_audio env audio m) = inr (Some w) ->
  w = []
  \/ Py.isspace (hd 0%N w) = false /\ Py.isspace (last w 0%N) = false.
Proof.
  intros H.
  assert (Hw : exists text, w = Py.strip text).
  { destruct H as [H|H].
    - destruct (transcribe_spec env audio c) as (Hr & _). rewrite Hr in H.
      unfold transcribed in H.
      destruct (env_transcription env) as [e|text]; [discriminate|].
      injection H as <-. eauto.
    - destruct (transcribe_audio_spec env audio m) as (Hr & _).
      rewrite Hr in H. unfold transcribed in H.
      destruct (env_transcription env) as [e|text]; [discriminate|].
      injection H as <-. eauto. }
  destruct Hw as (text & ->).
  destruct (Py.strip text) as [|k r] eqn:E; [left; reflexivity|right].
  split.
  - exact (strip_head text k r E).
  - rewrite <- E. unfold Py.strip. apply rstrip_last.
    fold (Py.strip text). rewrite E. discriminate.
Qed.

Lemma X15_transcript_is_trimmed_witness :
  Py.strip (u "  Hallo ") = []
  \/ Py.isspace (hd 0%N (Py.strip (u "  Hallo "))) = false
     /\ Py.isspace (last (Py.strip (u "  Hallo ")) 0%N) = false.
Proof.
  apply (X15_transcript_is_trimmed
           (calm pcm (u "  Hallo ") []) pcm agent0 monitor0
           (Py.strip (u "  Hallo "))).
  left. reflexivity.
Defined.

(** ** The media callbacks *)

(** One entry of the media at a time. *)
Lemma agent_media_cons (mi : MediaInfo) (rest : list MediaInfo)
    (s : Agent.AgentCall * list Task) :
  AgentCall_onCallMediaState (mi :: rest) s
  = if audio_active mi then
      match mi_getAudioMedia mi with
      | inl e => (inl e, s, [EvGetAudioMedia (mi_index mi)])
      | inr _ =>
          match mi_startTransmit_recorder mi with
          | inl e => (inl e, (set_agent_recorder (fst s), snd s),
                      [EvGetAudioMedia (mi_index mi); EvStartTransmit])
          | inr _ =>
              match mi_startTransmit_player mi with
              | inl e =>
                  (inl e,
                   (set_agent_player (set_agent_recorder (fst s)), snd s),
                   [EvGetAudioMedia (mi_index mi); EvStartTransmit;
                    EvStartTransmit])
              | inr _ =>
                  match AgentCall_onCallMediaState rest
                          (set_agent_player (set_agent_recorder (fst s)),
                           snd s ++ [ConversationTask]) with
                  | (r, s', t) =>
                      (r, s', [EvGetAudioMedia (mi_index mi);
                               EvStartTransmit; EvStartTransmit] ++ t)
                  end
              end
          end
      end
    else AgentCall_onCallMediaState rest s.
Proof.
  cbn [AgentCall_onCallMediaState].
  unfold bind, invoke, on_call, create_task, modify, emit, lift, ret.
  destruct s as [c tasks].
  destruct (audio_active mi); cbn.
  - destruct (mi_getAudioMedia mi); [reflexivity|].
    destruct (mi_startTransmit_recorder mi); [reflexivity|].
    destruct (mi_startTransmit_player mi); [reflexivity|].
    destruct (AgentCall_onCallMediaState rest _) as [[r s'] t].
    reflexivity.
  - destruct (AgentCall_onCallMediaState rest (c, tasks)) as [[r s'] t].
    reflexivity.
Qed.

Lemma monitor_media_cons (mi : MediaInfo) (rest : list MediaInfo)
    (s : Transcription.TranscriptionCall * list Task) :
  TranscriptionCall_onCallMediaState (mi :: rest) s
  = if audio_active mi then
      match mi_getAudioMedia mi with
      | inl e => (inl e, s, [EvGetAudioMedia (mi_index mi)])
      | inr _ =>
          match mi_startTransmit_recorder mi with
          | inl e => (inl e, (set_monitor_recorder (fst s), snd s),
                      [EvGetAudioMedia (mi_index mi); EvStartTransmit])
          | inr _ =>
              match TranscriptionCall_onCallMediaState rest
                      (Transcription.set_is_recording true
                         (set_monitor_recorder (fst s)),
                       snd s ++ [TranscriptionTask]) with
              | (r, s', t) =>
                  (r, s', [EvGetAudioMedia (mi_index mi);
                           EvStartTransmit] ++ t)
              end
          end
      end
    else TranscriptionCall_onCallMediaState rest s.
Proof.
  cbn [TranscriptionCall_onCallMediaState].
  unfold bind, invoke, on_call, create_task, modify, emit, lift, ret.
  destruct s as [c tasks].
  destruct (audio_active mi); cbn.
  - destruct (mi_getAudioMedia mi); [reflexivity|].
    destruct (mi_startTransmit_recorder mi); [reflexivity|].
    destruct (TranscriptionCall_onCallMediaState rest _) as [[r s'] t].
    reflexivity.
  - destruct (TranscriptionCall_onCallMediaState rest (c, tasks))
      as [[r s'] t].
    reflexivity.
Qed.



(** Once attached, the recorder and the player stay attached. *)
Lemma agent_media_keeps_devices (media : list MediaInfo) :
  forall s,
    Agent.recorder (fst s) = Some AudioMediaRecorder ->
    Agent.player (fst s) = Some AudioMediaPlayer ->
    let x := AgentCall_onCallMediaState media s in
    Agent.recorder (fst (final x)) = Some AudioMediaRecorder
    /\ Agent.player (fst (final x)) = Some AudioMediaPlayer.
Proof.
  induction media as [|mi rest IH]; intros s Hr Hp; cbv zeta; [auto|].
  rewrite agent_media_cons.
  destruct (audio_active mi); [|apply IH; assumption].
  destruct (mi_getAudioMedia mi); [auto|].
  destruct (mi_startTransmit_recorder mi); [auto|].
  destruct (mi_startTransmit_player mi); [auto|].
  specialize (IH (set_agent_player (set_agent_recorder (fst s)),
                  snd s ++ [ConversationTask]) eq_refl eq_refl).
  cbv zeta in IH.
  destruct (AgentCall_onCallMediaState rest _) as [[r s'] t].
  exact IH.
Qed.

(** X17: when the stack answers, the media callback of the agent starts
    one conversation loop for every active audio entry of the media, on
    the one call object: two active audio entries give two loops.  The
    recorder and the player are attached as soon as there is one. *)
Theorem X17_one_conversation_loop_per_active_audio
    (media : list MediaInfo) (c : Agent.AgentCall) (tasks : list Task) :
  forallb answered media = true ->
  let x := AgentCall_onCallMediaState media (c, tasks) in
  let n := List.length (filter audio_active media) in
  result x = inr tt
  /\ snd (final x) = tasks ++ repeat ConversationTask n
  /\ (n <> 0%nat ->
      Agent.recorder (fst (final x)) = Some AudioMediaRecorder
      /\ Agent.player (fst (final x)) = Some AudioMediaPlayer).
Proof.
  revert c tasks.
  induction media as [|mi rest IH]; intros c tasks Ha; cbv zeta.
  - cbn. rewrite app_nil_r. split; [reflexivity|]. split; [reflexivity|].
    congruence.
  - simpl in Ha. apply andb_prop in Ha. destruct Ha as (Hm & Hr).
    rewrite agent_media_cons. cbn [filter].
    destruct (audio_active mi).
    + unfold answered in Hm.
      destruct (mi_getAudioMedia mi); [discriminate|].
      destruct (mi_startTransmit_recorder mi); [discriminate|].
      destruct (mi_startTransmit_player mi); [discriminate|].
      cbn [fst snd].
      specialize (IH (set_agent_player (set_agent_recorder c))
                    (tasks ++ [ConversationTask]) Hr).
      pose proof (agent_media_keeps_devices rest
                    (set_agent_player (set_agent_recorder c),
                     tasks ++ [ConversationTask]) eq_refl eq_refl) as Hk.
      cbv zeta in IH, Hk.
      destruct (AgentCall_onCallMediaState rest _) as [[r s'] t].
      cbn [result final fst snd] in *.
      destruct IH as (I1 & I2 & _).
      split; [exact I1|]. split; [|intros _; exact Hk].
      rewrite I2, <- app_assoc. reflexivity.
    + apply (IH c tasks Hr).
Qed.

Lemma X17_one_conversation_loop_per_active_audio_witness :
  let ms := [media PJMEDIA_TYPE_AUDIO PJSUA_CALL_MEDIA_ACTIVE 0;
             media PJMEDIA_TYPE_VIDEO PJSUA_CALL_MEDIA_ACTIVE 1;
             media PJMEDIA_TYPE_AUDIO PJSUA_CALL_MEDIA_ACTIVE 2] in
  let c := AgentCall__init__ (u "Du bist freundlich.") in
  let x := AgentCall_onCallMediaState ms (c, [GreetingTask]) in
  let n := List.length (filter audio_active ms) in
  result x = inr tt
  /\ snd (final x) = [GreetingTask] ++ repeat ConversationTask n
  /\ (n <> 0%nat ->
      Agent.recorder (fst (final x)) = Some AudioMediaRecorder
      /\ Agent.player (fst (final x)) = Some AudioMediaPlayer).
Proof.
  apply (X17_one_conversation_loop_per_active_audio
           [media PJMEDIA_TYPE_AUDIO PJSUA_CALL_MEDIA_ACTIVE 0;
            media PJMEDIA_TYPE_VIDEO PJSUA_CALL_MEDIA_ACTIVE 1;
            media PJMEDIA_TYPE_AUDIO PJSUA_CALL_MEDIA_ACTIVE 2]
           (AgentCall__init__ (u "Du bist freundlich.")) [GreetingTask]).
  reflexivity.
Defined.

Lemma monitor_media_keeps_recording (media : list MediaInfo) :
  forall s,
    Transcription.recorder (fst s) = Some AudioMediaRecorder ->
    Transcription.is_recording (fst s) = true ->
    let x := TranscriptionCall_onCallMediaState media s in
    Transcription.recorder (fst (final x)) = Some AudioMediaRecorder
    /\ Transcription.is_recording (fst (final x)) = true.
Proof.
  induction media as [|mi rest IH]; intros s Hr Hp; cbv zeta; [auto|].
  rewrite monitor_media_cons.
  destruct (audio_active mi); [|apply IH; assumption].
  destruct (mi_getAudioMedia mi); [auto|].
  destruct (mi_startTransmit_recorder mi); [auto|].
  specialize (IH (Transcription.set_is_recording true
                    (set_monitor_recorder (fst s)),
                  snd s ++ [TranscriptionTask]) eq_refl eq_refl).
  cbv zeta in IH.
  destruct (TranscriptionCall_onCallMediaState rest _) as [[r s'] t].
  exact IH.
Qed.

(** X18: when the stack answers, the media callback of the transcription
    handler starts one transcription loop for every active audio entry
    and, unlike the agent's, sets the flag itself: after it, with at least
    one active audio entry, the call is recording with a recorder
    attached, so the loop it started does not return; without any, the
    call is left untouched. *)
Theorem X18_media_callback_starts_recording
    (media : list MediaInfo) (c : Transcription.TranscriptionCall)
    (tasks : list Task) :
  forallb answered media = true ->
  let x := TranscriptionCall_onCallMediaState media (c, tasks) in
  let n := List.length (filter audio_active media) in
  result x = inr tt
  /\ snd (final x) = tasks ++ repeat TranscriptionTask n
  /\ (n = 0%nat -> fst (final x) = c)
  /\ (n <> 0%nat ->
      Transcription._transcription_loop [] (fst (final x))
      = (Running, fst (final x), [])
      /\ Transcription.recorder (fst (final x))
         = Some AudioMediaRecorder).
Proof.
  revert c tasks.
  induction media as [|mi rest IH]; intros c tasks Ha; cbv zeta.
  - cbn. rewrite app_nil_r. split_all; try reflexivity. congruence.
  - simpl in Ha. apply andb_prop in Ha. destruct Ha as (Hm & Hr).
    rewrite monitor_media_cons. cbn [filter].
    destruct (audio_active mi).
    + unfold answered in Hm.
      destruct (mi_getAudioMedia mi); [discriminate|].
      destruct (mi_startTransmit_recorder mi); [discriminate|].
      cbn [fst snd].
      specialize (IH (Transcription.set_is_recording true
                        (set_monitor_recorder c))
                    (tasks ++ [TranscriptionTask]) Hr).
      pose proof (monitor_media_keeps_recording rest
                    (Transcription.set_is_recording true
                       (set_monitor_recorder c),
                     tasks ++ [TranscriptionTask]) eq_refl eq_refl) as Hk.
      cbv zeta in IH, Hk.
      destruct (TranscriptionCall_onCallMediaState rest _) as [[r s'] t].
      cbn [result final fst snd] in *.
      destruct IH as (I1 & I2 & _). destruct Hk as (K1 & K2).
      split; [exact I1|]. split.
      * rewrite I2, <- app_assoc. reflexivity.
      * split; [discriminate|]. intros _. split; [|exact K1].
        simpl. rewrite K2. reflexivity.
    + apply (IH c tasks Hr).
Qed.

Lemma X18_media_callback_starts_recording_witness :
  let ms := [media PJMEDIA_TYPE_AUDIO PJSUA_CALL_MEDIA_ACTIVE 0] in
  let c := TranscriptionCall__init__ (Some WsSender) in
  let x := TranscriptionCall_onCallMediaState ms (c, []) in
  let n := List.length (filter audio_active ms) in
  result x = inr tt
  /\ snd (final x) = [] ++ repeat TranscriptionTask n
  /\ (n = 0%nat -> fst (final x) = c)
  /\ (n <> 0%nat ->
      Transcription._transcription_loop [] (fst (final x))
      = (Running, fst (final x), [])
      /\ Transcription.recorder (fst (final x))
         = Some AudioMediaRecorder).
Proof.
  apply (X18_media_callback_starts_recording
           [media PJMEDIA_TYPE_AUDIO PJSUA_CALL_MEDIA_ACTIVE 0]
           (TranscriptionCall__init__ (Some WsSender)) []).
  reflexivity.
Defined.

(** ** main.py *)

Lemma pystr_eqb_eq (a b : pystr) : Main.pystr_eqb a b = true <-> a = b.
Proof.
  revert b. induction a as [|x a IH]; intros [|y b]; simpl;
    try (split; [discriminate|congruence]); [tauto|].
  rewrite andb_true_iff, N.eqb_eq, IH. split.
  - intros (-> & ->). reflexivity.
  - intros [= -> ->]. auto.
Qed.

Ltac environ_cases environ :=
  destruct (environ (u "SIP_DOMAIN")) as [[|? ?]|];
  destruct (environ (u "SIP_USERNAME")) as [[|? ?]|];
  destruct (environ (u "SIP_PASSWORD")) as [[|? ?]|];
  destruct (environ (u "OPENAI_API_KEY")) as [[|? ?]|].

(** X19: [main] checks the four required fields in the order sip_domain,
    sip_username, sip_password, openai_api_key, and raises [ValueError]
    for the first one whose variable is unset or empty, naming that field,
    whatever the later ones and the mode are. *)
Theorem X19_first_missing_field_is_reported
    (environ : Main.Environ) (before after : list (pystr * pystr))
    (field name : pystr) :
  required_variables = before ++ (field, name) :: after ->
  (forall f n, In (f, n) before -> is_set environ n = true) ->
  is_set environ name = false ->
  Main.main environ
  = inl (Main.ValueError (u "Missing required configuration: " ++ field)).
Proof.
  unfold required_variables, is_set. intros Hsplit Hbefore Hmissing.
  destruct before as [|p0 [|p1 [|p2 [|p3 before]]]];
    cbn [app] in Hsplit.
  - injection Hsplit as <- <- _.
    unfold Main.main, Main.load_config, Main.getenv.
    destruct (environ (u "SIP_DOMAIN")) as [[|? ?]|];
      try discriminate; reflexivity.
  - injection Hsplit as <- <- <- _.
    pose proof (Hbefore _ _ (or_introl eq_refl)) as B0.
    unfold Main.main, Main.load_config, Main.getenv.
    destruct (environ (u "SIP_DOMAIN")) as [[|? ?]|]; try discriminate.
    destruct (environ (u "SIP_USERNAME")) as [[|? ?]|];
      try discriminate; reflexivity.
  - injection Hsplit as <- <- <- <- _.
    pose proof (Hbefore _ _ (or_introl eq_refl)) as B0.
    pose proof (Hbefore _ _ (or_intror (or_introl eq_refl))) as B1.
    unfold Main.main, Main.load_config, Main.getenv.
    destruct (environ (u "SIP_DOMAIN")) as [[|? ?]|]; try discriminate.
    destruct (environ (u "SIP_USERNAME")) as [[|? ?]|]; try discriminate.
    destruct (environ (u "SIP_PASSWORD")) as [[|? ?]|];
      try discriminate; reflexivity.
  - injection Hsplit as <- <- <- <- <- _.
    pose proof (Hbefore _ _ (or_introl eq_refl)) as B0.
    pose proof (Hbefore _ _ (or_intror (or_introl eq_refl))) as B1.
    pose proof (Hbefore _ _ (or_intror (or_intror (or_introl eq_refl))))
      as B2.
    unfold Main.main, Main.load_config, Main.getenv.
    destruct (environ (u "SIP_DOMAIN")) as [[|? ?]|]; try discriminate.
    destruct (environ (u "SIP_USERNAME")) as [[|? ?]|]; try discriminate.
    destruct (environ (u "SIP_PASSWORD")) as [[|? ?]|]; try discriminate.
    destruct (environ (u "OPENAI_API_KEY")) as [[|? ?]|];
      try discriminate; reflexivity.
  - exfalso. injection Hsplit as _ _ _ _ Hs.
    destruct before; discriminate.
Qed.

Lemma X19_first_missing_field_is_reported_witness :
  Main.main (Main.environ_of [(u "SIP_DOMAIN", u "example.org");
                              (u "SIP_USERNAME", []);
                              (u "BOT_MODE", u "agent")])
  = inl (Main.ValueError
           (u "Missing required configuration: " ++ u "sip_username")).
Proof.
  apply (X19_first_missing_field_is_reported
           (Main.environ_of [(u "SIP_DOMAIN", u "example.org");
                             (u "SIP_USERNAME", []);
                             (u "BOT_MODE", u "agent")])
           [(u "sip_domain", u "SIP_DOMAIN")]
           [(u "sip_password", u "SIP_PASSWORD");
            (u "openai_api_key", u "OPENAI_API_KEY")]
           (u "sip_username") (u "SIP_USERNAME")).
  - reflexivity.
  - intros f n [[= <- <-]|[]]. reflexivity.
  - reflexivity.
Defined.

(** X20: [main] constructs a bot only from a complete configuration and a
    known mode.  It is the agent bot exactly when the four required
    variables are set and BOT_MODE is "agent", and the transcription bot
    exactly when they are set and BOT_MODE is "transcription" or unset;
    in every other case no bot is constructed. *)
Theorem X20_bot_is_started_iff_configuration_is_complete
    (environ : Main.Environ) :
  let complete :=
    forallb (fun p => is_set environ (snd p)) required_variables in
  let config := Main.load_config environ in
  (Main.main environ = inr (Main.AgentBot config)
   <-> complete = true /\ environ (u "BOT_MODE") = Some (u "agent"))
  /\ (Main.main environ = inr (Main.TranscriptionBot config)
      <-> complete = true
          /\ (environ (u "BOT_MODE") = None
              \/ environ (u "BOT_MODE") = Some (u "transcription")))
  /\ (forall bot, Main.main environ = inr bot ->
        bot = Main.AgentBot config \/ bot = Main.TranscriptionBot config).
Proof.
  cbv zeta.
  unfold required_variables, is_set, Main.main, Main.load_config,
    Main.getenv.
  cbn [forallb snd].
  destruct (environ (u "BOT_MODE")) as [m|];
    environ_cases environ; cbn.
  all: try (split; [|split]; [split; [discriminate|intros (H & _);
                                       discriminate]
                             |split; [discriminate|intros (H & _);
                                       discriminate]
                             |discriminate]).
  - match goal with
    | |- context [Main.pystr_eqb m ?x] =>
        destruct (Main.pystr_eqb m x) eqn:Et
    end.
    + apply pystr_eqb_eq in Et. subst m.
      split; [|split].
      * split; [discriminate|]. intros (_ & H). discriminate.
      * split; auto.
      * intros bot [= <-]. auto.
    + match goal with
      | |- context [Main.pystr_eqb m ?x] =>
          destruct (Main.pystr_eqb m x) eqn:Ea
      end.
      * apply pystr_eqb_eq in Ea. subst m.
        split; [|split].
        -- split; auto.
        -- split; [discriminate|]. intros (_ & [H|H]); discriminate.
        -- intros bot [= <-]. auto.
      * split; [|split].
        -- split; [discriminate|]. intros (_ & [= ->]).
           cbn in Ea. discriminate.
        -- split; [discriminate|].
           intros (_ & [H|[= ->]]); [discriminate|].
           cbn in Et. discriminate.
        -- discriminate.
  - split; [|split].
    + split; [discriminate|]. intros (_ & H). discriminate.
    + split; auto.
    + intros bot [= <-]. auto.
Qed.

(** X21: with a complete configuration, any other mode makes [main] raise
    [ValueError] with the mode in its message.  The comparison is exact:
    "Agent" and the empty string are not modes. *)
Theorem X21_unknown_mode_is_refused
    (environ : Main.Environ) (mode : pystr) :
  forallb (fun p => is_set environ (snd p)) required_variables = true ->
  environ (u "BOT_MODE") = Some mode ->
  mode <> u "transcription" ->
  mode <> u "agent" ->
  Main.main environ
  = inl (Main.ValueError (u "Invalid BOT_MODE: " ++ mode)).
Proof.
  unfold required_variables, is_set, Main.main, Main.load_config,
    Main.getenv.
  cbn [forallb snd]. intros Hc Hm Ht Ha.
  rewrite Hm.
  assert (Et : Main.pystr_eqb mode (u "transcription") = false).
  { destruct (Main.pystr_eqb mode (u "transcription")) eqn:E;
      [|reflexivity].
    apply pystr_eqb_eq in E. contradiction. }
  assert (Ea : Main.pystr_eqb mode (u "agent") = false).
  { destruct (Main.pystr_eqb mode (u "agent")) eqn:E; [|reflexivity].
    apply pystr_eqb_eq in E. contradiction. }
  environ_cases environ; try discriminate.
  cbn -[u Main.pystr_eqb]. unfold Main.equals, Main.format.
  cbn -[u Main.pystr_eqb].
  change (Main.pystr_eqb (u "bot_mode") (u "sip_domain")) with false.
  change (Main.pystr_eqb (u "bot_mode") (u "sip_username")) with false.
  change (Main.pystr_eqb (u "bot_mode") (u "sip_password")) with false.
  change (Main.pystr_eqb (u "bot_mode") (u "openai_api_key")) with false.
  change (Main.pystr_eqb (u "bot_mode") (u "backend_ws_url")) with false.
  change (Main.pystr_eqb (u "bot_mode") (u "bot_mode")) with true.
  cbn -[u Main.pystr_eqb]. rewrite Et, Ea. reflexivity.
Qed.

Lemma X21_unknown_mode_is_refused_witness :
  Main.main (Main.environ_of [(u "SIP_DOMAIN", u "example.org");
                              (u "SIP_USERNAME", u "bot");
                              (u "SIP_PASSWORD", u "secret");
                              (u "OPENAI_API_KEY", u "sk-test");
                              (u "BOT_MODE", u "Agent")])
  = inl (Main.ValueError (u "Invalid BOT_MODE: " ++ u "Agent")).
Proof.
  apply (X21_unknown_mode_is_refused
           (Main.environ_of [(u "SIP_DOMAIN", u "example.org");
                             (u "SIP_USERNAME", u "bot");
                             (u "SIP_PASSWORD", u "secret");
                             (u "OPENAI_API_KEY", u "sk-test");
                             (u "BOT_MODE", u "Agent")])
           (u "Agent")).
  - reflexivity.
  - reflexivity.
  - discriminate.
  - discriminate.
Defined.

(** X22: the wait of [_speak] is the binary64 product [len(text) * 0.1],
    which is not always a tenth of a second per character: for five
    characters it is half a second, for three characters it is
    1351079888211149 / 2^52 = 0.3000000000000000444..., more than three
    tenths, and for the 46 characters of the utterance that follows a
    blank transcription it is 5179139571476071 / 2^50 = 4.6000000000000005... *)
Theorem X22_wait_is_the_float_product :
  Agent.audio_duration (u "Hallo") = 1 # 2
  /\ Agent.audio_duration (u "abc")
     = 1351079888211149 # 4503599627370496
  /\ (3 # 10 < Agent.audio_duration (u "abc"))%Q
  /\ Agent.audio_duration [] = 0
  /\ List.length Agent.no_text_prompt = 46%nat
  /\ Agent.audio_duration Agent.no_text_prompt
     = 5179139571476071 # 1125899906842624.
Proof. vm_compute. repeat split; reflexivity. Qed.
